(** * A4 geospatial utilities of the VirtuGhan QGIS plugin

    A shallow embedding of [a_4_utils.py] and of its earlier version
    [Other_Trials/A4_utils.py]:

    - Python exceptions are results of a small error monad, and the two
      effects of the module, writing files and printing, are threaded as an
      explicit [World];
    - a Python [dict] is an insertion-ordered association list whose
      assignment overwrites in place;
    - NumPy [float32] arrays are lists of IEEE 754 binary32 values, computed
      with the Standard Library's [SpecFloat] at precision 24;
    - the libraries the module calls ([mercantile], [vcube.tile], [PIL],
      [asyncio], the builtin [eval]) and the file system's resolution of
      paths are parameters of the sections that use them. *)

From Stdlib Require Import ZArith String Ascii List.
From Stdlib Require Import DecimalString DecimalZ DecimalPos.
From Stdlib Require Import Floats.SpecFloat.
From stdpp Require Import gmap strings list.

Local Open Scope Z_scope.
Local Open Scope string_scope.

(** ** Exceptions and results *)

(** A raised exception: its class name and its message. *)
Inductive exn : Type :=
  | PyExc (cls : string) (msg : string).

Inductive result (A : Type) : Type :=
  | Ok (a : A)
  | Raise (e : exn).
Arguments Ok {A} a.
Arguments Raise {A} e.

#[global] Instance result_ret : MRet result := fun _ a => Ok a.

#[global] Instance result_bind : MBind result := fun _ _ k r =>
  match r with
  | Ok a => k a
  | Raise e => Raise e
  end.

(** ** Strings: [str(int)] and f-strings *)

(** [str(n)] of a Python [int]: decimal digits, a leading [-] when negative. *)
Definition py_str_int (n : Z) : string :=
  NilZero.string_of_int (Z.to_int n).

(** Whether the character [c] occurs in [s]. *)
Fixpoint has_char (c : ascii) (s : string) : bool :=
  match s with
  | EmptyString => false
  | String c' s' => Ascii.eqb c' c || has_char c s'
  end.

(** ** The insertion-ordered dictionary *)

Section PyDict.
Context {K V : Type} `{EqDecision K}.

(** [d.get(k, None)] *)
Fixpoint dict_get (d : list (K * V)) (k : K) : option V :=
  match d with
  | [] => None
  | (k', v) :: d' => if decide (k' = k) then Some v else dict_get d' k
  end.

(** [d[k] = v]: the value of an existing key is replaced where it stands,
    a new key goes to the end. *)
Fixpoint dict_set (d : list (K * V)) (k : K) (v : V) : list (K * V) :=
  match d with
  | [] => [(k, v)]
  | (k', v') :: d' =>
      if decide (k' = k) then (k', v) :: d' else (k', v') :: dict_set d' k v
  end.

(** [list(d.keys())] *)
Definition dict_keys (d : list (K * V)) : list K := map fst d.

(** What every dictionary built by assignments satisfies. *)
Definition dict_wf (d : list (K * V)) : Prop := NoDup (dict_keys d).
End PyDict.

(** ** The world the module acts on *)

Section World.
Context {Image : Type}.

(** The files, each under the name its paths resolve to, and the lines
    printed so far. *)
Record World : Type := mkWorld {
  files : gmap string Image;
  stdout : list string
}.

(** A statement of the module: it runs in a world, and returns or raises. *)
Definition M (A : Type) : Type := World -> result A * World.

#[global] Instance M_ret : MRet M := fun _ a w => (Ok a, w).

#[global] Instance M_bind : MBind M := fun _ _ k c w =>
  match c w with
  | (Ok a, w') => k a w'
  | (Raise e, w') => (Raise e, w')
  end.

(** [print(line)] *)
Definition print (line : string) : M unit :=
  fun w => (Ok tt, mkWorld (files w) (stdout w ++ [line])).

(** [PIL.Image.save]: the library decides whether the write fails; a
    successful one leaves the image in the file the name resolves to. *)
Variable save_error : gmap string Image -> Image -> string -> option exn.

(** How the file system resolves a path to a file: paths that denote one
    file, as [out/a.png] and [out/./a.png] do, resolve to one name. *)
Variable resolve : string -> string.

Definition Image_save (image : Image) (filename : string) : M unit :=
  fun w =>
    match save_error (files w) image filename with
    | Some e => (Raise e, w)
    | None =>
        (Ok tt, mkWorld (<[resolve filename := image]> (files w)) (stdout w))
    end.

(** *** [a_4_utils.save_tile_image] *)
Definition tile_filename (output_folder : string) (x y z : Z) : string :=
  output_folder ++ "/tile_" ++ py_str_int z ++ "_" ++ py_str_int x
    ++ "_" ++ py_str_int y ++ ".png".

Definition save_tile_image (image : Image) (x y z : Z)
    (output_folder : string) : M unit :=
  let filename := tile_filename output_folder x y z in
  Image_save image filename ;;
  print ("Saved tile image as: " ++ filename).

(** *** [Other_Trials/A4_utils.save_tile_image] *)
Definition trial_tile_filename (output_folder : string) (x y z : Z)
    : string :=
  output_folder ++ "/tile_" ++ py_str_int x ++ "_" ++ py_str_int y
    ++ "_" ++ py_str_int z ++ ".png".

Definition trial_save_tile_image (image : Image) (x y z : Z)
    (output_folder : string) : M unit :=
  let filename := trial_tile_filename output_folder x y z in
  Image_save image filename ;;
  print ("Saved tile image as: " ++ filename).

(** *** [class VirtualCube] *)
Context {Metadata : Type}.

(** The key [(x, y, z, name)]. *)
Definition TileKey : Type := Z * Z * Z * string.

Definition make_key (coords : Z * Z * Z) (name : string) : TileKey :=
  let '(x, y, z) := coords in (x, y, z, name).

Record VirtualCube : Type := mkCube {
  tiles : list (TileKey * (Image * Metadata))
}.

(** [__init__] *)
Definition VirtualCube_init : VirtualCube := mkCube [].

Definition add_tile (self : VirtualCube) (name : string) (image : Image)
    (metadata : Metadata) (coords : Z * Z * Z) : VirtualCube :=
  let key := make_key coords name in
  mkCube (dict_set (tiles self) key (image, metadata)).

Definition list_tiles (self : VirtualCube) : list TileKey :=
  dict_keys (tiles self).

Definition get_tile (self : VirtualCube) (name : string)
    (coords : Z * Z * Z) : option (Image * Metadata) :=
  let key := make_key coords name in
  dict_get (tiles self) key.

Definition cube_filename (output_folder : string) (key : TileKey)
    : string :=
  let '(x, y, z, name) := key in
  output_folder ++ "/" ++ name ++ "_" ++ py_str_int z ++ "_"
    ++ py_str_int x ++ "_" ++ py_str_int y ++ ".png".

(** The [for] loop of [save_all] over [self.tiles.items()]. *)
Fixpoint save_items (output_folder : string)
    (items : list (TileKey * (Image * Metadata))) : M unit :=
  match items with
  | [] => mret tt
  | (key, (img, _)) :: rest =>
      Image_save img (cube_filename output_folder key) ;;
      save_items output_folder rest
  end.

Definition save_all (self : VirtualCube) (output_folder : string)
    : M unit :=
  save_items output_folder (tiles self) ;;
  print ("Saved " ++ py_str_int (Z.of_nat (length (tiles self)))
           ++ " tiles to " ++ output_folder).
End World.

Arguments World : clear implicits.
Arguments M : clear implicits.
Arguments VirtualCube : clear implicits.

(** The methods of [VirtualCube], as calls on an instance. *)
Inductive CubeCall {Image Metadata : Type} : Type :=
  | CallAddTile (name : string) (image : Image) (metadata : Metadata)
      (coords : Z * Z * Z)
  | CallListTiles
  | CallGetTile (name : string) (coords : Z * Z * Z)
  | CallSaveAll (output_folder : string).
Arguments CubeCall : clear implicits.

(** The instance after a call; only [add_tile] assigns to [self.tiles]. *)
Definition cube_after {Image Metadata : Type}
    (self : VirtualCube Image Metadata) (c : CubeCall Image Metadata)
    : VirtualCube Image Metadata :=
  match c with
  | CallAddTile name image metadata coords =>
      add_tile self name image metadata coords
  | CallListTiles => self
  | CallGetTile _ _ => self
  | CallSaveAll _ => self
  end.

(** ** Floating point *)

(** Python's [float] is IEEE 754 binary64, NumPy's [float32] binary32; both
    round to nearest, ties to even. *)
Module F64.
Definition prec : Z := 53.
Definition emax : Z := 1024.
Definition add : spec_float -> spec_float -> spec_float := SFadd prec emax.
Definition sub : spec_float -> spec_float -> spec_float := SFsub prec emax.
Definition mul : spec_float -> spec_float -> spec_float := SFmul prec emax.
Definition div : spec_float -> spec_float -> spec_float := SFdiv prec emax.
Definition of_Z (n : Z) : spec_float := binary_normalize prec emax n 0 false.
End F64.

Module F32.
Definition prec : Z := 24.
Definition emax : Z := 128.
Definition add : spec_float -> spec_float -> spec_float := SFadd prec emax.
Definition sub : spec_float -> spec_float -> spec_float := SFsub prec emax.
Definition mul : spec_float -> spec_float -> spec_float := SFmul prec emax.
Definition div : spec_float -> spec_float -> spec_float := SFdiv prec emax.
Definition of_Z (n : Z) : spec_float := binary_normalize prec emax n 0 false.

(** The cast of a binary64 value to binary32. *)
Definition of_f64 (x : spec_float) : spec_float :=
  match x with
  | S754_finite s m e => binary_normalize prec emax (cond_Zopp s (Zpos m)) e s
  | _ => x
  end.
End F32.

(** A zero of either sign. *)
Definition is_zero (x : spec_float) : bool :=
  match x with
  | S754_zero _ => true
  | _ => false
  end.

(** Zero or above, [+inf] included; [NaN] is not. *)
Definition nonneg (x : spec_float) : bool :=
  match x with
  | S754_zero _ => true
  | S754_infinity s => negb s
  | S754_nan => false
  | S754_finite s _ _ => negb s
  end.

(** The literal [1e-6], as Python reads it. *)
Definition eps64 : spec_float := S754_finite false 4722366482869645 (-72).

(** ** Arrays *)

(** A one-dimensional [numpy.ndarray] of an integer or floating dtype. *)
Inductive ndarray : Type :=
  | IntArray (data : list Z)
  | Float32Array (data : list spec_float)
  | Float64Array (data : list spec_float).

(** [a.astype('float32')] *)
Definition astype_float32 (a : ndarray) : list spec_float :=
  match a with
  | IntArray data => map F32.of_Z data
  | Float32Array data => data
  | Float64Array data => map F32.of_f64 data
  end.

(** What an expression of the module evaluates to: a [float32] array or a
    Python [float]. *)
Inductive value : Type :=
  | VArray (a : list spec_float)
  | VFloat (x : spec_float).

Definition broadcast_error : exn :=
  PyExc "ValueError" "operands could not be broadcast together".

Fixpoint zip_with_f (f : spec_float -> spec_float -> spec_float)
    (a b : list spec_float) : list spec_float :=
  match a, b with
  | x :: a', y :: b' => f x y :: zip_with_f f a' b'
  | _, _ => []
  end.

(** NumPy's rule for two one-dimensional operands: equal lengths go
    elementwise, a length of one is stretched, anything else raises. *)
Definition broadcast2 (f : spec_float -> spec_float -> spec_float)
    (a b : list spec_float) : result (list spec_float) :=
  if Nat.eqb (length a) (length b) then Ok (zip_with_f f a b)
  else match a, b with
       | [x], _ => Ok (map (f x) b)
       | _, [y] => Ok (map (fun x => f x y) a)
       | _, _ => Raise broadcast_error
       end.

(** A binary operator: [f32] between arrays (a Python [float] operand is cast
    to the array's dtype), [f64] between two Python floats. *)
Definition py_binop (f32 f64 : spec_float -> spec_float -> spec_float)
    (l r : value) : result value :=
  match l, r with
  | VArray a, VArray b => a' ← broadcast2 f32 a b; mret (VArray a')
  | VArray a, VFloat y => mret (VArray (map (fun x => f32 x (F32.of_f64 y)) a))
  | VFloat x, VArray b => mret (VArray (map (f32 (F32.of_f64 x)) b))
  | VFloat x, VFloat y => mret (VFloat (f64 x y))
  end.

Definition py_add : value -> value -> result value := py_binop F32.add F64.add.
Definition py_sub : value -> value -> result value := py_binop F32.sub F64.sub.
Definition py_mul : value -> value -> result value := py_binop F32.mul F64.mul.

(** [l / r]: only the division of two Python floats checks its divisor. *)
Definition py_div (l r : value) : result value :=
  match l, r with
  | VFloat _, VFloat y =>
      if is_zero y then Raise (PyExc "ZeroDivisionError" "float division by zero")
      else py_binop F32.div F64.div l r
  | _, _ => py_binop F32.div F64.div l r
  end.

Definition py_neg (v : value) : value :=
  match v with
  | VArray a => VArray (map SFopp a)
  | VFloat x => VFloat (SFopp x)
  end.

(** The values [py_div] divides by. *)
Definition divisors (den : value) : list spec_float :=
  match den with
  | VArray a => a
  | VFloat x => [x]
  end.

(** ** [str.replace] *)

(** [skip] characters of an occurrence just replaced are still to be passed. *)
Fixpoint replace_from (old new : string) (skip : nat) (s : string) : string :=
  match s with
  | EmptyString => EmptyString
  | String c s' =>
      match skip with
      | S k => replace_from old new k s'
      | O =>
          if String.prefix old s
          then new ++ replace_from old new (String.length old - 1) s'
          else String c (replace_from old new 0 s')
      end
  end.

Fixpoint intersperse (new : string) (s : string) : string :=
  match s with
  | EmptyString => new
  | String c s' => new ++ String c (intersperse new s')
  end.

(** [s.replace(old, new)]: every occurrence, left to right, without overlap;
    an empty [old] matches between any two characters. *)
Definition str_replace (s old new : string) : string :=
  match old with
  | EmptyString => intersperse new s
  | _ => replace_from old new 0 s
  end.

(** ** Arithmetic expressions under [eval] *)

(** The expressions modelled: names bound to values, the operators [+ - * /]
    in binary and unary use, parentheses, blanks. *)
Inductive token : Type :=
  | TName (n : string)
  | TPlus | TMinus | TStar | TSlash | TLParen | TRParen.

Definition is_digit (c : ascii) : bool :=
  let n := nat_of_ascii c in (Nat.leb 48 n && Nat.leb n 57)%bool.

Definition is_name_start (c : ascii) : bool :=
  let n := nat_of_ascii c in
  ((Nat.leb 65 n && Nat.leb n 90) || (Nat.leb 97 n && Nat.leb n 122)
   || Nat.eqb n 95)%bool.

Definition is_blank (c : ascii) : bool :=
  let n := nat_of_ascii c in (Nat.eqb n 32 || Nat.eqb n 9)%bool.

Definition symbol (c : ascii) : option token :=
  if Ascii.eqb c "+" then Some TPlus
  else if Ascii.eqb c "-" then Some TMinus
  else if Ascii.eqb c "*" then Some TStar
  else if Ascii.eqb c "/" then Some TSlash
  else if Ascii.eqb c "(" then Some TLParen
  else if Ascii.eqb c ")" then Some TRParen
  else None.

Definition flush (cur : option string) (ts : list token) : list token :=
  match cur with
  | Some n => TName n :: ts
  | None => ts
  end.

(** [cur] is the name being read, if any. A character outside the modelled
    expressions gives [None]. *)
Fixpoint tokenize (cur : option string) (s : string) : option (list token) :=
  match s with
  | EmptyString => Some (flush cur [])
  | String c s' =>
      match cur with
      | Some n =>
          if (is_name_start c || is_digit c)%bool
          then tokenize (Some (n ++ String c EmptyString)) s'
          else match symbol c with
               | Some t => ts ← tokenize None s'; Some (TName n :: t :: ts)
               | None =>
                   if is_blank c
                   then ts ← tokenize None s'; Some (TName n :: ts)
                   else None
               end
      | None =>
          if is_name_start c then tokenize (Some (String c EmptyString)) s'
          else match symbol c with
               | Some t => ts ← tokenize None s'; Some (t :: ts)
               | None => if is_blank c then tokenize None s' else None
               end
      end
  end.

Inductive binop : Type := OpAdd | OpSub | OpMul | OpDiv.

Inductive expr : Type :=
  | EName (n : string)
  | ENeg (e : expr)
  | EPos (e : expr)
  | EBin (op : binop) (l r : expr).

(** Python's grammar for these operators: [sum], [term], [factor], atom, all
    binary operators associating to the left. *)
Fixpoint parse_sum (fuel : nat) (ts : list token)
    : option (expr * list token) :=
  match fuel with
  | O => None
  | S f => '(e, rest) ← parse_term f ts; sum_rest f e rest
  end
with sum_rest (fuel : nat) (l : expr) (ts : list token)
    : option (expr * list token) :=
  match fuel with
  | O => None
  | S f =>
      match ts with
      | TPlus :: ts' =>
          '(r, rest) ← parse_term f ts'; sum_rest f (EBin OpAdd l r) rest
      | TMinus :: ts' =>
          '(r, rest) ← parse_term f ts'; sum_rest f (EBin OpSub l r) rest
      | _ => Some (l, ts)
      end
  end
with parse_term (fuel : nat) (ts : list token)
    : option (expr * list token) :=
  match fuel with
  | O => None
  | S f => '(e, rest) ← parse_factor f ts; term_rest f e rest
  end
with term_rest (fuel : nat) (l : expr) (ts : list token)
    : option (expr * list token) :=
  match fuel with
  | O => None
  | S f =>
      match ts with
      | TStar :: ts' =>
          '(r, rest) ← parse_factor f ts'; term_rest f (EBin OpMul l r) rest
      | TSlash :: ts' =>
          '(r, rest) ← parse_factor f ts'; term_rest f (EBin OpDiv l r) rest
      | _ => Some (l, ts)
      end
  end
with parse_factor (fuel : nat) (ts : list token)
    : option (expr * list token) :=
  match fuel with
  | O => None
  | S f =>
      match ts with
      | TMinus :: ts' => '(e, rest) ← parse_factor f ts'; Some (ENeg e, rest)
      | TPlus :: ts' => '(e, rest) ← parse_factor f ts'; Some (EPos e, rest)
      | TName n :: ts' => Some (EName n, ts')
      | TLParen :: ts' =>
          '(e, rest) ← parse_sum f ts';
          match rest with
          | TRParen :: rest' => Some (e, rest')
          | _ => None
          end
      | _ => None
      end
  end.

Definition parse (s : string) : option expr :=
  ts ← tokenize None s;
  '(e, rest) ← parse_sum (4 * length ts + 4) ts;
  match rest with
  | [] => Some e
  | _ => None
  end.

(** The local variables an expression can name. *)
Definition env : Type := list (string * value).

Fixpoint env_lookup (rho : env) (n : string) : option value :=
  match rho with
  | [] => None
  | (n', v) :: rho' => if String.eqb n' n then Some v else env_lookup rho' n
  end.

Definition apply_binop (op : binop) : value -> value -> result value :=
  match op with
  | OpAdd => py_add
  | OpSub => py_sub
  | OpMul => py_mul
  | OpDiv => py_div
  end.

(** Operands are evaluated left to right; [None] when a name is not among the
    modelled variables. *)
Fixpoint eval_expr (rho : env) (e : expr) : option (result value) :=
  match e with
  | EName n => v ← env_lookup rho n; Some (Ok v)
  | ENeg e1 =>
      match eval_expr rho e1 with
      | None => None
      | Some (Raise e) => Some (Raise e)
      | Some (Ok v) => Some (Ok (py_neg v))
      end
  | EPos e1 => eval_expr rho e1
  | EBin op l r =>
      match eval_expr rho l with
      | None => None
      | Some (Raise e) => Some (Raise e)
      | Some (Ok vl) =>
          match eval_expr rho r with
          | None => None
          | Some (Raise e) => Some (Raise e)
          | Some (Ok vr) => Some (apply_binop op vl vr)
          end
      end
  end.

(** [eval(s)] on the modelled expressions; [None] outside of them. *)
Definition arith_eval (s : string) (rho : env) : option (result value) :=
  e ← parse s; eval_expr rho e.

(** An evaluator that does on the modelled expressions what [arith_eval]
    does, whatever it does elsewhere. *)
Definition extends_arith_eval (py_eval : string -> env -> result value)
    : Prop :=
  forall s rho r, arith_eval s rho = Some r -> py_eval s rho = r.

(** [arith_eval], raising outside the modelled expressions. *)
Definition arith_eval_total (s : string) (rho : env) : result value :=
  match arith_eval s rho with
  | Some r => r
  | None => Raise (PyExc "NotImplementedError" "expression not modelled")
  end.

(** ** The index *)

(** The literal [1e-6] once cast to the dtype of a [float32] array. *)
Definition eps32 : spec_float := F32.of_f64 eps64.

(** *** [Other_Trials/A4_utils.compute_ndvi] *)

(** The divisor of [compute_ndvi]: [nir + red + 1e-6]. *)
Definition ndvi_denominator (nir red : list spec_float) : result value :=
  s ← py_add (VArray nir) (VArray red);
  py_add s (VFloat eps64).

Definition compute_ndvi (nir_array red_array : ndarray) : result value :=
  let nir := astype_float32 nir_array in
  let red := astype_float32 red_array in
  num ← py_sub (VArray nir) (VArray red);
  den ← ndvi_denominator nir red;
  py_div num den.

(** *** [a_4_utils.compute_index] *)
Section ComputeIndex.
Variable py_eval : string -> env -> result value.

Definition rename_bands (formula : string) : string :=
  str_replace (str_replace formula "band1" "b1") "band2" "b2".

(** The divisor of [compute_index]: [eval(denominator) + 1e-6]. *)
Definition index_denominator (b1 b2 : list spec_float) (num : value)
    (denominator : string) : result value :=
  den ← py_eval (rename_bands denominator)
           [("b1", VArray b1); ("b2", VArray b2); ("num", num)];
  py_add den (VFloat eps64).

Definition compute_index (nir_array red_array : ndarray)
    (numerator denominator : string) : result value :=
  let b1 := astype_float32 red_array in
  let b2 := astype_float32 nir_array in
  num ← py_eval (rename_bands numerator)
           [("b1", VArray b1); ("b2", VArray b2)];
  den ← index_denominator b1 b2 num denominator;
  py_div num den.
End ComputeIndex.

Definition default_numerator : string := "band2-band1".
Definition default_denominator : string := "band2+band1".

(** ** Fetching a tile *)

(** What the functions return: Python objects, tuples among them. *)
#[warnings="-register-all"]
Inductive pyobj {Image Feature : Type} : Type :=
  | PImage (img : Image)
  | PFeature (feature : Feature)
  | PInt (n : Z)
  | PTuple (items : list pyobj).
Arguments pyobj : clear implicits.

(** The keyword arguments of [TileProcessor.cached_generate_tile]. *)
Record TileRequest : Type := mkRequest {
  req_x : Z;
  req_y : Z;
  req_z : Z;
  req_start_date : string;
  req_end_date : string;
  req_cloud_cover : Z;
  req_band1 : string;
  req_band2 : string;
  req_formula : string;
  req_colormap_str : string
}.

Section Fetch.
Context {Image Feature Processor Loop : Type}.

(** [mercantile.tile(lng, lat, zoom)] *)
Variable mercantile_tile : spec_float -> spec_float -> Z -> result (Z * Z * Z).
(** [TileProcessor()] *)
Variable TileProcessor_new : result Processor.
(** [asyncio.get_event_loop()] *)
Variable get_event_loop : result Loop.
(** [loop.run_until_complete(tp.cached_generate_tile(...))] *)
Variable run_cached_generate_tile :
  Loop -> Processor -> TileRequest -> result (list Byte.byte * Feature).
(** [Image.open(BytesIO(image_bytes))] *)
Variable Image_open : list Byte.byte -> result Image.

(** *** [a_4_utils.fetch_index_tile] *)
Definition fetch_index_tile (lat lon : spec_float) (zoom : Z)
    (start_date end_date : string) (cloud_cover : Z)
    (band1 band2 formula colormap_str : string)
    : result (pyobj Image Feature) :=
  '(x, y, z) ← mercantile_tile lon lat zoom;
  tp ← TileProcessor_new;
  loop ← get_event_loop;
  '(image_bytes, feature) ←
    run_cached_generate_tile loop tp
      (mkRequest x y z start_date end_date cloud_cover band1 band2 formula
         colormap_str);
  img ← Image_open image_bytes;
  mret (PTuple [PImage img; PFeature feature;
                PTuple [PInt x; PInt y; PInt z]]).

(** *** [Other_Trials/A4_utils.fetch_ndvi_tile] *)
Definition fetch_ndvi_tile (lat lon : spec_float) (zoom : Z)
    (start_date end_date : string) (cloud_cover : Z)
    : result (pyobj Image Feature) :=
  '(x, y, z) ← mercantile_tile lon lat zoom;
  tile_processor ← TileProcessor_new;
  loop ← get_event_loop;
  '(image_bytes, feature) ←
    run_cached_generate_tile loop tile_processor
      (mkRequest x y z start_date end_date cloud_cover "red" "nir"
         "(band2-band1)/(band2+band1)" "RdYlGn");
  image ← Image_open image_bytes;
  mret (PTuple [PImage image; PFeature feature]).
End Fetch.

(** The defaults of the keyword parameters. *)
Definition default_zoom : Z := 12.
Definition default_start_date : string := "2024-04-01".
Definition default_end_date : string := "2024-04-30".
Definition default_cloud_cover : Z := 30.
Definition default_band1 : string := "red".
Definition default_band2 : string := "nir".
Definition default_formula : string := "(band2-band1)/(band2+band1)".
Definition default_colormap_str : string := "RdYlGn".

(** The shape the tile-fetch operation is specified to return: an image, a
    metadata record and the coordinates [(x, y, z)]. *)
Definition image_feature_coords {Image Feature : Type}
    (o : pyobj Image Feature) (xyz : Z * Z * Z) : Prop :=
  exists img feature,
    o = PTuple [PImage img; PFeature feature;
                PTuple [PInt xyz.1.1; PInt xyz.1.2; PInt xyz.2]].

(** ** The index as the glossary gives it, and as the code computes it *)

(** The glossary's NDVI of one pixel, [(NIR - Red) / (NIR + Red)], in the
    arithmetic of the arrays. *)
Definition ndvi_glossary (nir red : spec_float) : spec_float :=
  F32.div (F32.sub nir red) (F32.add nir red).

(** The same with [1e-6] added to the divisor. *)
Definition ndvi_eps (nir red : spec_float) : spec_float :=
  F32.div (F32.sub nir red) (F32.add (F32.add nir red) eps32).

(** A float whose exponent, when finite, is not below the smallest one of
    the format; every [valid_binary] float is such. *)
Definition exp_bounded (prec emax : Z) (x : spec_float) : Prop :=
  match x with
  | S754_finite _ _ e => emin prec emax <= e
  | _ => True
  end.

(** A [float32] value that is not negative. *)
Definition nonneg32 (x : spec_float) : Prop :=
  nonneg x = true /\ exp_bounded F32.prec F32.emax x.

Definition nonzero (x : spec_float) : Prop := is_zero x = false.

(** [len(a)] *)
Definition array_size (a : ndarray) : nat :=
  match a with
  | IntArray data => length data
  | Float32Array data => length data
  | Float64Array data => length data
  end.

(** A band without negative values: counts, or reflectances, as floats of
    the array's format. *)
Definition nonneg_band (a : ndarray) : Prop :=
  match a with
  | IntArray data => Forall (fun n => 0 <= n) data
  | Float32Array data =>
      Forall (fun x => nonneg x = true /\
                       valid_binary F32.prec F32.emax x = true) data
  | Float64Array data => Forall (fun x => nonneg x = true) data
  end.

(** ** Where an operation can fail *)

(** [compute_index]: either evaluated expression, or the division; adding
    the Python float [1e-6] to a value never raises. *)
Inductive index_failure (py_eval : string -> env -> result value)
    (nir_array red_array : ndarray) (numerator denominator : string)
    (e : exn) : Prop :=
  | numerator_fails :
      py_eval (rename_bands numerator)
        [("b1", VArray (astype_float32 red_array));
         ("b2", VArray (astype_float32 nir_array))] = Raise e ->
      index_failure py_eval nir_array red_array numerator denominator e
  | denominator_fails num :
      py_eval (rename_bands numerator)
        [("b1", VArray (astype_float32 red_array));
         ("b2", VArray (astype_float32 nir_array))] = Ok num ->
      py_eval (rename_bands denominator)
        [("b1", VArray (astype_float32 red_array));
         ("b2", VArray (astype_float32 nir_array)); ("num", num)] = Raise e ->
      index_failure py_eval nir_array red_array numerator denominator e
  | division_fails num den den' :
      py_eval (rename_bands numerator)
        [("b1", VArray (astype_float32 red_array));
         ("b2", VArray (astype_float32 nir_array))] = Ok num ->
      py_eval (rename_bands denominator)
        [("b1", VArray (astype_float32 red_array));
         ("b2", VArray (astype_float32 nir_array)); ("num", num)] = Ok den ->
      py_add den (VFloat eps64) = Ok den' ->
      py_div num den' = Raise e ->
      index_failure py_eval nir_array red_array numerator denominator e.

(** [compute_ndvi]: the array arithmetic, operator by operator. *)
Inductive ndvi_failure (nir_array red_array : ndarray) (e : exn) : Prop :=
  | ndvi_sub_fails :
      py_sub (VArray (astype_float32 nir_array))
        (VArray (astype_float32 red_array)) = Raise e ->
      ndvi_failure nir_array red_array e
  | ndvi_denominator_fails num :
      py_sub (VArray (astype_float32 nir_array))
        (VArray (astype_float32 red_array)) = Ok num ->
      ndvi_denominator (astype_float32 nir_array)
        (astype_float32 red_array) = Raise e ->
      ndvi_failure nir_array red_array e
  | ndvi_div_fails num den :
      py_sub (VArray (astype_float32 nir_array))
        (VArray (astype_float32 red_array)) = Ok num ->
      ndvi_denominator (astype_float32 nir_array)
        (astype_float32 red_array) = Ok den ->
      py_div num den = Raise e ->
      ndvi_failure nir_array red_array e.

(** [save_all]: the write of some entry, those before it having succeeded. *)
Inductive save_all_failure {Image Metadata : Type}
    (save_error : gmap string Image -> Image -> string -> option exn)
    (resolve : string -> string)
    (self : VirtualCube Image Metadata) (output_folder : string)
    (w : World Image) (e : exn) (w' : World Image) : Prop :=
  | entry_write_fails before key img metadata after :
      tiles self = (before ++ (key, (img, metadata)) :: after)%list ->
      save_items save_error resolve output_folder before w = (Ok tt, w') ->
      save_error (files w') img (cube_filename output_folder key) = Some e ->
      save_all_failure save_error resolve self output_folder w e w'.

(** A tile fetch: any of the five library calls, those before it having
    succeeded. [request] builds the keyword arguments from the tile. *)
Inductive fetch_failure {Image Feature Processor Loop : Type}
    (mercantile_tile : spec_float -> spec_float -> Z -> result (Z * Z * Z))
    (TileProcessor_new : result Processor)
    (get_event_loop : result Loop)
    (run_cached_generate_tile :
       Loop -> Processor -> TileRequest -> result (list Byte.byte * Feature))
    (Image_open : list Byte.byte -> result Image)
    (lat lon : spec_float) (zoom : Z) (request : Z -> Z -> Z -> TileRequest)
    (e : exn) : Prop :=
  | projection_fails :
      mercantile_tile lon lat zoom = Raise e ->
      fetch_failure mercantile_tile TileProcessor_new get_event_loop
        run_cached_generate_tile Image_open lat lon zoom request e
  | processor_fails xyz :
      mercantile_tile lon lat zoom = Ok xyz ->
      TileProcessor_new = Raise e ->
      fetch_failure mercantile_tile TileProcessor_new get_event_loop
        run_cached_generate_tile Image_open lat lon zoom request e
  | loop_fails xyz tp :
      mercantile_tile lon lat zoom = Ok xyz ->
      TileProcessor_new = Ok tp ->
      get_event_loop = Raise e ->
      fetch_failure mercantile_tile TileProcessor_new get_event_loop
        run_cached_generate_tile Image_open lat lon zoom request e
  | engine_fails x y z tp loop :
      mercantile_tile lon lat zoom = Ok (x, y, z) ->
      TileProcessor_new = Ok tp ->
      get_event_loop = Ok loop ->
      run_cached_generate_tile loop tp (request x y z) = Raise e ->
      fetch_failure mercantile_tile TileProcessor_new get_event_loop
        run_cached_generate_tile Image_open lat lon zoom request e
  | decode_fails x y z tp loop image_bytes feature :
      mercantile_tile lon lat zoom = Ok (x, y, z) ->
      TileProcessor_new = Ok tp ->
      get_event_loop = Ok loop ->
      run_cached_generate_tile loop tp (request x y z)
        = Ok (image_bytes, feature) ->
      Image_open image_bytes = Raise e ->
      fetch_failure mercantile_tile TileProcessor_new get_event_loop
        run_cached_generate_tile Image_open lat lon zoom request e.

(** The keyword arguments [fetch_ndvi_tile] fixes. *)
Definition ndvi_request (start_date end_date : string) (cloud_cover : Z)
    (x y z : Z) : TileRequest :=
  mkRequest x y z start_date end_date cloud_cover "red" "nir"
    "(band2-band1)/(band2+band1)" "RdYlGn".

(** ** Histories, shapes and finite values *)

(** An instance as a program gets it: [VirtualCube()], then method calls in
    order. *)
Definition cube_run {Image Metadata : Type}
    (calls : list (CubeCall Image Metadata)) : VirtualCube Image Metadata :=
  fold_left cube_after calls VirtualCube_init.

(** What a call stores under [key], if it is an [add_tile] with that key. *)
Definition stored_by {Image Metadata : Type} (c : CubeCall Image Metadata)
    (key : TileKey) : option (Image * Metadata) :=
  match c with
  | CallAddTile name image metadata coords =>
      if decide (make_key coords name = key) then Some (image, metadata)
      else None
  | _ => None
  end.

(** The payload of the last [add_tile] of a history under [key]. *)
Fixpoint last_added {Image Metadata : Type}
    (calls : list (CubeCall Image Metadata)) (key : TileKey)
    : option (Image * Metadata) :=
  match calls with
  | [] => None
  | c :: rest =>
      match last_added rest key with
      | Some payload => Some payload
      | None => stored_by c key
      end
  end.

(** A resolution of paths that passes over the segments [.], as POSIX does:
    [out/./a.png] is the file [out/a.png]. *)
Definition drop_dot_segments (path : string) : string :=
  str_replace path "/./" "/".

(** The image last written, by the loop of [save_all] over [items], to the
    file named [p]. *)
Fixpoint last_written {Image Metadata : Type} (resolve : string -> string)
    (output_folder : string) (items : list (TileKey * (Image * Metadata)))
    (p : string) : option Image :=
  match items with
  | [] => None
  | (key, (img, _)) :: rest =>
      match last_written resolve output_folder rest p with
      | Some later => Some later
      | None =>
          if decide (resolve (cube_filename output_folder key) = p)
          then Some img else None
      end
  end.

(** Whether NumPy combines one-dimensional operands of these lengths. *)
Definition broadcastable (n m : nat) : bool :=
  Nat.eqb n m || Nat.eqb n 1 || Nat.eqb m 1.

(** The length of the combination. *)
Definition broadcast_size (n m : nat) : nat :=
  if Nat.eqb n m then n else if Nat.eqb n 1 then m else n.

(** Neither an infinity nor [NaN]. *)
Definition is_finite (x : spec_float) : bool :=
  match x with
  | S754_zero _ => true
  | S754_finite _ _ _ => true
  | _ => false
  end.

(** A returned tuple without its third component. *)
Definition without_coords {Image Feature : Type} (o : pyobj Image Feature)
    : pyobj Image Feature :=
  match o with
  | PTuple [img; feature; _] => PTuple [img; feature]
  | _ => o
  end.

Definition result_map {A B : Type} (f : A -> B) (r : result A) : result B :=
  match r with
  | Ok a => Ok (f a)
  | Raise e => Raise e
  end.

(** * Properties *)

(** ** The dictionary *)

Section PyDictFacts.
Context {K V : Type} `{EqDecision K}.
Implicit Types (d : list (K * V)) (k : K) (v : V).

Lemma dict_get_set_eq d k v : dict_get (dict_set d k v) k = Some v.
Proof.
  induction d as [|[k' v'] d IH]; simpl.
  - by rewrite decide_True.
  - destruct (decide (k' = k)) as [->|Hne]; simpl.
    + by rewrite decide_True.
    + by rewrite decide_False.
Qed.

Lemma dict_get_set_ne d k k' v :
  k ≠ k' -> dict_get (dict_set d k v) k' = dict_get d k'.
Proof.
  intros Hne. induction d as [|[k0 v0] d IH]; simpl.
  - by rewrite decide_False.
  - destruct (decide (k0 = k)) as [->|Hk0]; simpl.
    + by rewrite !decide_False.
    + by rewrite IH.
Qed.

Lemma dict_get_None d k : dict_get d k = None <-> k ∉ dict_keys d.
Proof.
  induction d as [|[k' v'] d IH]; simpl.
  - split; [intros _; apply not_elem_of_nil | done].
  - rewrite not_elem_of_cons. destruct (decide (k' = k)) as [->|Hne].
    + split; [done | by intros [? _]].
    + rewrite IH. split; [by intros ?; split | by intros [_ ?]].
Qed.

Lemma dict_get_Some_elem d k v : dict_get d k = Some v -> (k, v) ∈ d.
Proof.
  induction d as [|[k' v'] d IH]; simpl; [done|].
  destruct (decide (k' = k)) as [->|Hne].
  - intros [= ->]. apply list_elem_of_here.
  - intros Hget. apply list_elem_of_further. by apply IH.
Qed.

Lemma dict_keys_set_present d k v :
  k ∈ dict_keys d -> dict_keys (dict_set d k v) = dict_keys d.
Proof.
  induction d as [|[k' v'] d IH]; simpl.
  - by intros ?%not_elem_of_nil.
  - intros Hin. destruct (decide (k' = k)) as [->|Hne]; simpl; [done|].
    f_equal. apply IH. apply elem_of_cons in Hin as [?|?]; congruence.
Qed.

Lemma dict_keys_set_absent d k v :
  k ∉ dict_keys d -> dict_keys (dict_set d k v) = (dict_keys d ++ [k])%list.
Proof.
  induction d as [|[k' v'] d IH]; simpl; [done|].
  rewrite not_elem_of_cons. intros [Hne Hnin].
  rewrite decide_False by done. simpl. by rewrite IH.
Qed.

Lemma dict_keys_set_elem d k k' v :
  k' ∈ dict_keys d -> k' ∈ dict_keys (dict_set d k v).
Proof.
  intros Hin. destruct (decide (k ∈ dict_keys d)) as [Hk|Hk].
  - by rewrite dict_keys_set_present.
  - rewrite dict_keys_set_absent by done. apply elem_of_app. by left.
Qed.

Lemma dict_wf_set d k v : dict_wf d -> dict_wf (dict_set d k v).
Proof.
  unfold dict_wf. intros Hwf.
  destruct (decide (k ∈ dict_keys d)) as [Hk|Hk].
  - by rewrite dict_keys_set_present.
  - rewrite dict_keys_set_absent by done.
    apply NoDup_app. split; [done|]. split; [|apply NoDup_singleton].
    intros x Hx ->%list_elem_of_singleton. done.
Qed.
End PyDictFacts.

(** ** The virtual cube *)

Section CubeFacts.
Context {Image Metadata : Type}.
Implicit Types (self : VirtualCube Image Metadata) (name : string)
  (coords : Z * Z * Z) (image : Image) (metadata : Metadata).

(** C1. A tile stored with [add_tile] is what [get_tile] returns for the same
    name and the same coordinates: the pair of the image and the metadata. *)
Theorem get_tile_add_tile self name image metadata coords :
  get_tile (add_tile self name image metadata coords) name coords
  = Some (image, metadata).
Proof. unfold get_tile, add_tile; simpl. apply dict_get_set_eq. Qed.

(** C9. When no entry is stored under the key made of the coordinates and
    the name, [get_tile] returns [None]; nothing is raised. *)
Theorem get_tile_missing self name coords :
  make_key coords name ∉ list_tiles self ->
  get_tile self name coords = None.
Proof. intros Hnin. unfold get_tile. by apply dict_get_None. Qed.

(** C10. Of two [add_tile] calls with one name and one coordinate triple the
    second wins: [get_tile] returns its payload, and the stored keys are the
    same list, so the same number, as after the first call. *)
Theorem add_tile_last_write_wins self name coords
    image1 metadata1 image2 metadata2 :
  let once := add_tile self name image1 metadata1 coords in
  let twice := add_tile once name image2 metadata2 coords in
  get_tile twice name coords = Some (image2, metadata2)
  /\ list_tiles twice = list_tiles once
  /\ length (list_tiles twice) = length (list_tiles once).
Proof.
  intros once twice.
  assert (Hkeys : list_tiles twice = list_tiles once).
  { unfold twice, list_tiles, add_tile; simpl.
    apply dict_keys_set_present. apply dec_stable. intros Hnin.
    apply dict_get_None in Hnin. by rewrite dict_get_set_eq in Hnin. }
  split; [apply get_tile_add_tile|]. split; [done | by rewrite Hkeys].
Qed.

(** C7. The store never evicts: [add_tile] leaves what is stored under every
    other key as it was, and after any call of a method of the class an entry
    that was stored is still stored. *)
Theorem virtual_cube_never_evicts self name image metadata coords
    name' coords' :
  (make_key coords' name' ≠ make_key coords name ->
   get_tile (add_tile self name image metadata coords) name' coords'
   = get_tile self name' coords')
  /\ (forall call v,
        get_tile self name' coords' = Some v ->
        make_key coords' name' ∈ list_tiles (cube_after self call)
        /\ (get_tile (cube_after self call) name' coords' = Some v
            \/ exists image0 metadata0,
                 call = CallAddTile name' image0 metadata0 coords'
                 /\ get_tile (cube_after self call) name' coords'
                    = Some (image0, metadata0))).
Proof.
  split.
  - intros Hne. unfold get_tile, add_tile; simpl.
    by apply dict_get_set_ne.
  - intros call v Hget.
    assert (Hin : make_key coords' name' ∈ list_tiles self).
    { apply dec_stable. intros Hnin. apply dict_get_None in Hnin.
      unfold get_tile in Hget. congruence. }
    destruct call as [n i m c| |n c|folder]; simpl; try by auto.
    split; [by apply dict_keys_set_elem|].
    destruct (decide (make_key c n = make_key coords' name')) as [Heq|Hne].
    + right. exists i, m.
      assert (c = coords' /\ n = name') as [-> ->].
      { destruct c as [[??]?], coords' as [[??]?]. simpl in Heq.
        by inversion Heq. }
      split; [done | apply get_tile_add_tile].
    + left. unfold get_tile, add_tile; simpl.
      by rewrite dict_get_set_ne.
Qed.
End CubeFacts.

(** ** File names *)

Lemma string_app_cons (x : ascii) (a b : string) :
  String x a ++ b = String x (a ++ b).
Proof. reflexivity. Qed.

Lemma string_app_nil (b : string) : EmptyString ++ b = b.
Proof. reflexivity. Qed.

Lemma string_app_assoc (a b c : string) : (a ++ b) ++ c = a ++ (b ++ c).
Proof.
  induction a as [|x a IH]; [done|].
  by rewrite !string_app_cons, IH.
Qed.

Lemma has_char_app c (a b : string) :
  has_char c (a ++ b) = has_char c a || has_char c b.
Proof.
  induction a as [|x a IH]; [done|].
  rewrite string_app_cons. simpl. by rewrite IH, orb_assoc.
Qed.

(** A string is cut in one way only at the last occurrence of [c]. *)
Lemma cut_at_last c (a a' t t' : string) :
  has_char c t = false -> has_char c t' = false ->
  a ++ String c t = a' ++ String c t' -> a = a' /\ t = t'.
Proof.
  intros Ht Ht'. revert a'.
  induction a as [|x a IH]; intros [|x' a'];
    rewrite ?string_app_cons, ?string_app_nil; intros Heq.
  - by inversion Heq.
  - inversion Heq; subst. rewrite has_char_app in Ht; simpl in Ht.
    rewrite Ascii.eqb_refl, orb_true_r in Ht. done.
  - inversion Heq; subst. rewrite has_char_app in Ht'; simpl in Ht'.
    rewrite Ascii.eqb_refl, orb_true_r in Ht'. done.
  - inversion Heq; subst. destruct (IH a') as [-> ->]; done.
Qed.

Lemma string_of_uint_no_underscore (d : Decimal.uint) :
  has_char "_" (NilEmpty.string_of_uint d) = false.
Proof. induction d; simpl; done. Qed.

Lemma py_str_int_no_underscore (n : Z) : has_char "_" (py_str_int n) = false.
Proof.
  unfold py_str_int, NilZero.string_of_int, NilZero.string_of_uint.
  destruct (Z.to_int n) as [d|d]; destruct d; simpl;
    try done; apply string_of_uint_no_underscore.
Qed.

Lemma py_str_int_inj (n n' : Z) : py_str_int n = py_str_int n' -> n = n'.
Proof.
  unfold py_str_int. intros Heq. apply to_int_inj.
  assert (Hnil : forall k, Z.to_int k ≠ Decimal.Pos Decimal.Nil
                           /\ Z.to_int k ≠ Decimal.Neg Decimal.Nil).
  { intros [|p|p]; simpl; split; try done;
      intros [= Hp]; by apply Unsigned.to_uint_nonnil in Hp. }
  destruct (Hnil n) as [? ?], (Hnil n') as [? ?].
  assert (Some (Z.to_int n) = Some (Z.to_int n')) as [= ->]; [|done].
  rewrite <- (NilZero.isi (Z.to_int n)), <- (NilZero.isi (Z.to_int n'))
    by done.
  by rewrite Heq.
Qed.

Lemma regroup_at_underscores (a s1 s2 t : string) :
  a ++ "_" ++ s1 ++ "_" ++ s2 ++ "_" ++ t
  = ((a ++ String "_" s1) ++ String "_" s2) ++ String "_" t.
Proof. rewrite !string_app_assoc. reflexivity. Qed.

(** Distinct keys of a cube go to distinct files of a folder. *)
Lemma cube_filename_inj (output_folder : string) (key key' : TileKey) :
  cube_filename output_folder key = cube_filename output_folder key' ->
  key = key'.
Proof.
  destruct key as [[[x y] z] name], key' as [[[x' y'] z'] name'].
  unfold cube_filename. intros Heq.
  apply String.app_inj in Heq. apply (String.app_inj "/") in Heq.
  rewrite !regroup_at_underscores in Heq.
  apply cut_at_last in Heq as [Heq Hy];
    [|rewrite has_char_app, py_str_int_no_underscore; done..].
  apply cut_at_last in Heq as [Heq Hx];
    [|apply py_str_int_no_underscore..].
  apply cut_at_last in Heq as [Hname Hz];
    [|apply py_str_int_no_underscore..].
  change ".png" with (String "." "png") in Hy.
  apply cut_at_last in Hy as [Hy _]; [|done..].
  apply py_str_int_inj in Hx, Hy, Hz. by subst.
Qed.

(** ** Writing tiles *)

Section WorldFacts.
Context {Image Metadata : Type}.
Variable save_error : gmap string Image -> Image -> string -> option exn.
Variable resolve : string -> string.
Implicit Types (w : World Image) (self : VirtualCube Image Metadata)
  (items : list (TileKey * (Image * Metadata))).

Lemma Image_save_ok image filename w :
  save_error (files w) image filename = None ->
  Image_save save_error resolve image filename w
  = (Ok tt, mkWorld (<[resolve filename := image]> (files w)) (stdout w)).
Proof. intros Hok. unfold Image_save. by rewrite Hok. Qed.

Lemma Image_save_fails image filename w e :
  save_error (files w) image filename = Some e ->
  Image_save save_error resolve image filename w = (Raise e, w).
Proof. intros Hfail. unfold Image_save. by rewrite Hfail. Qed.

Lemma M_bind_run {A B} (c : M Image A) (k : A -> M Image B) w :
  (c ≫= k) w
  = match c w with
    | (Ok a, w') => k a w'
    | (Raise e, w') => (Raise e, w')
    end.
Proof. reflexivity. Qed.

(** C5. When the write succeeds, [save_tile_image] of [a_4_utils] leaves the
    image under [<folder>/tile_<z>_<x>_<y>.png], the components in the order
    z, x, y, and prints that name; the [save_tile_image] of
    [Other_Trials/A4_utils] writes [<folder>/tile_<x>_<y>_<z>.png]. *)
Theorem save_tile_image_file image x y z output_folder w :
  let zxy := output_folder ++ "/tile_" ++ py_str_int z ++ "_"
               ++ py_str_int x ++ "_" ++ py_str_int y ++ ".png" in
  let xyz := output_folder ++ "/tile_" ++ py_str_int x ++ "_"
               ++ py_str_int y ++ "_" ++ py_str_int z ++ ".png" in
  (save_error (files w) image zxy = None ->
   save_tile_image save_error resolve image x y z output_folder w
   = (Ok tt, mkWorld (<[resolve zxy := image]> (files w))
               (stdout w ++ ["Saved tile image as: " ++ zxy])))
  /\ (save_error (files w) image xyz = None ->
      trial_save_tile_image save_error resolve image x y z output_folder w
      = (Ok tt, mkWorld (<[resolve xyz := image]> (files w))
                  (stdout w ++ ["Saved tile image as: " ++ xyz]))).
Proof.
  intros zxy xyz. split; intros Hok.
  - unfold save_tile_image, tile_filename. fold zxy.
    rewrite M_bind_run, (Image_save_ok _ _ _ Hok). reflexivity.
  - unfold trial_save_tile_image, trial_tile_filename. fold xyz.
    rewrite M_bind_run, (Image_save_ok _ _ _ Hok). reflexivity.
Qed.

(** The files the entries of a cube are written to. *)
Lemma resolved_names_map output_folder items :
  map resolve (map (cube_filename output_folder) (dict_keys items))
  = map (fun entry => resolve (cube_filename output_folder entry.1)) items.
Proof. unfold dict_keys. by rewrite !map_map. Qed.

(** The loop of [save_all] when no write fails: nothing is printed, no file
    but those of the items is touched, and when the items have files of their
    own every item is in its file. *)
Lemma save_items_ok output_folder items w :
  (forall fs key img metadata,
     (key, (img, metadata)) ∈ items ->
     save_error fs img (cube_filename output_folder key) = None) ->
  exists w',
    save_items save_error resolve output_folder items w = (Ok tt, w')
    /\ stdout w' = stdout w
    /\ (forall p,
          p ∉ map resolve
                (map (cube_filename output_folder) (dict_keys items)) ->
          files w' !! p = files w !! p)
    /\ (NoDup (map resolve
                 (map (cube_filename output_folder) (dict_keys items))) ->
        forall key img metadata,
          (key, (img, metadata)) ∈ items ->
          files w' !! resolve (cube_filename output_folder key) = Some img).
Proof.
  revert w. induction items as [|[key [img metadata]] items IH];
    intros w Hok.
  - exists w. split; [done|]. split; [done|]. split; [done|].
    intros _ ? ? ? ?%not_elem_of_nil. done.
  - destruct (IH (mkWorld (<[resolve (cube_filename output_folder key)
                             := img]> (files w)) (stdout w)))
      as (w' & Hrun & Hout & Hframe & Hfiles).
    { intros fs k i m Hin. apply (Hok fs k i m). by apply list_elem_of_further. }
    exists w'. split.
    { simpl. rewrite M_bind_run, Image_save_ok; [done|].
      apply (Hok _ key img metadata), list_elem_of_here. }
    split; [done|]. split.
    + intros p Hp. simpl in Hp. apply not_elem_of_cons in Hp as [Hne Hp].
      rewrite (Hframe p Hp). simpl. by rewrite lookup_insert_ne.
    + simpl. intros [Hhead Htail]%NoDup_cons k i m Hin.
      apply elem_of_cons in Hin as [Heq|Hin].
      * inversion Heq; subst. rewrite (Hframe _ Hhead).
        simpl. apply lookup_insert_eq.
      * by apply (Hfiles Htail k i m).
Qed.

Lemma cube_filenames_NoDup output_folder items :
  dict_wf items ->
  NoDup (map (cube_filename output_folder) (dict_keys items)).
Proof.
  intros Hwf.
  assert (Inj eq eq (cube_filename output_folder))
    by (intros k k'; apply cube_filename_inj).
  by apply (NoDup_fmap_2 (cube_filename output_folder)).
Qed.

(** C6. When no write fails and no two entries are written to one file,
    [save_all] leaves the image of the entry under [(x, y, z, name)] in the
    file of [<folder>/<name>_<z>_<x>_<y>.png]; these files are as many as the
    entries, no other file changes, and the count is printed. *)
Theorem save_all_files self output_folder w :
  let written := map resolve
                   (map (cube_filename output_folder) (list_tiles self)) in
  let line := "Saved " ++ py_str_int (Z.of_nat (length (tiles self)))
                ++ " tiles to " ++ output_folder in
  NoDup written ->
  (forall fs key img metadata,
     (key, (img, metadata)) ∈ tiles self ->
     save_error fs img (cube_filename output_folder key) = None) ->
  exists w',
    save_all save_error resolve self output_folder w = (Ok tt, w')
    /\ (forall x y z name img metadata,
          dict_get (tiles self) (x, y, z, name) = Some (img, metadata) ->
          files w' !! resolve (output_folder ++ "/" ++ name ++ "_"
                                 ++ py_str_int z ++ "_" ++ py_str_int x
                                 ++ "_" ++ py_str_int y ++ ".png")
          = Some img)
    /\ length written = length (tiles self)
    /\ (forall p, p ∉ written -> files w' !! p = files w !! p)
    /\ stdout w' = (stdout w ++ [line])%list.
Proof.
  intros written line Hnd Hok.
  destruct (save_items_ok output_folder (tiles self) w Hok)
    as (w1 & Hrun & Hout & Hframe & Hfiles).
  exists (mkWorld (files w1) (stdout w1 ++ [line])).
  split. { unfold save_all. rewrite M_bind_run, Hrun. reflexivity. }
  split.
  { intros x y z name img metadata Hget. simpl.
    apply (Hfiles Hnd (x, y, z, name) img metadata).
    by apply dict_get_Some_elem. }
  split.
  { unfold written, list_tiles, dict_keys. by rewrite !length_map. }
  split; [done|]. simpl. by rewrite Hout.
Qed.
End WorldFacts.

(** ** Fetching a tile *)

Section FetchFacts.
Context {Image Feature Processor Loop : Type}.
Variable mercantile_tile : spec_float -> spec_float -> Z -> result (Z * Z * Z).
Variable TileProcessor_new : result Processor.
Variable get_event_loop : result Loop.
Variable run_cached_generate_tile :
  Loop -> Processor -> TileRequest -> result (list Byte.byte * Feature).
Variable Image_open : list Byte.byte -> result Image.

(** C4. When the library calls succeed, [fetch_index_tile] returns the
    image, the metadata record and the coordinates [(x, y, z)] that
    [mercantile.tile] gives for the longitude, latitude and zoom;
    [fetch_ndvi_tile] returns the image and the metadata record only. *)
Theorem fetch_tile_result lat lon zoom start_date end_date cloud_cover
    band1 band2 formula colormap_str x y z tp loop image_bytes feature img :
  mercantile_tile lon lat zoom = Ok (x, y, z) ->
  TileProcessor_new = Ok tp ->
  get_event_loop = Ok loop ->
  Image_open image_bytes = Ok img ->
  (run_cached_generate_tile loop tp
     (mkRequest x y z start_date end_date cloud_cover band1 band2 formula
        colormap_str) = Ok (image_bytes, feature) ->
   fetch_index_tile mercantile_tile TileProcessor_new get_event_loop
     run_cached_generate_tile Image_open lat lon zoom start_date end_date
     cloud_cover band1 band2 formula colormap_str
   = Ok (PTuple [PImage img; PFeature feature;
                 PTuple [PInt x; PInt y; PInt z]]))
  /\ (run_cached_generate_tile loop tp
        (ndvi_request start_date end_date cloud_cover x y z)
      = Ok (image_bytes, feature) ->
      fetch_ndvi_tile mercantile_tile TileProcessor_new get_event_loop
        run_cached_generate_tile Image_open lat lon zoom start_date end_date
        cloud_cover
      = Ok (PTuple [PImage img; PFeature feature])).
Proof.
  intros Htile Htp Hloop Hopen. split; intros Hrun.
  - unfold fetch_index_tile. rewrite Htile; simpl.
    rewrite Htp; simpl. rewrite Hloop; simpl. rewrite Hrun; simpl.
    by rewrite Hopen.
  - unfold fetch_ndvi_tile, ndvi_request in *. rewrite Htile; simpl.
    rewrite Htp; simpl. rewrite Hloop; simpl. rewrite Hrun; simpl.
    by rewrite Hopen.
Qed.

Lemma fetch_index_tile_raises lat lon zoom start_date end_date cloud_cover
    band1 band2 formula colormap_str e :
  fetch_failure mercantile_tile TileProcessor_new get_event_loop
    run_cached_generate_tile Image_open lat lon zoom
    (fun x y z => mkRequest x y z start_date end_date cloud_cover band1 band2
                    formula colormap_str) e ->
  fetch_index_tile mercantile_tile TileProcessor_new get_event_loop
    run_cached_generate_tile Image_open lat lon zoom start_date end_date
    cloud_cover band1 band2 formula colormap_str = Raise e.
Proof.
  unfold fetch_index_tile.
  intros [H1|[[??]?] H1 H2|[[??]?] ? H1 H2 H3|????? H1 H2 H3 H4
         |??????? H1 H2 H3 H4 H5];
    rewrite H1; simpl; try done;
    rewrite H2; simpl; try done;
    rewrite H3; simpl; try done;
    rewrite H4; simpl; try done.
  by rewrite H5.
Qed.

Lemma fetch_ndvi_tile_raises lat lon zoom start_date end_date cloud_cover e :
  fetch_failure mercantile_tile TileProcessor_new get_event_loop
    run_cached_generate_tile Image_open lat lon zoom
    (ndvi_request start_date end_date cloud_cover) e ->
  fetch_ndvi_tile mercantile_tile TileProcessor_new get_event_loop
    run_cached_generate_tile Image_open lat lon zoom start_date end_date
    cloud_cover = Raise e.
Proof.
  unfold fetch_ndvi_tile, ndvi_request.
  intros [H1|[[??]?] H1 H2|[[??]?] ? H1 H2 H3|????? H1 H2 H3 H4
         |??????? H1 H2 H3 H4 H5];
    rewrite H1; simpl; try done;
    rewrite H2; simpl; try done;
    rewrite H3; simpl; try done;
    rewrite H4; simpl; try done.
  by rewrite H5.
Qed.
End FetchFacts.

(** ** Failures reach the caller *)

Lemma compute_index_raises py_eval nir_array red_array numerator
    denominator e :
  index_failure py_eval nir_array red_array numerator denominator e ->
  compute_index py_eval nir_array red_array numerator denominator = Raise e.
Proof.
  unfold compute_index, index_denominator.
  intros [H1|num H1 H2|num den den' H1 H2 H3 H4]; rewrite H1; simpl;
    try done; rewrite H2; simpl; try done.
  rewrite H3; simpl. done.
Qed.

Lemma compute_ndvi_raises nir_array red_array e :
  ndvi_failure nir_array red_array e ->
  compute_ndvi nir_array red_array = Raise e.
Proof.
  unfold compute_ndvi.
  intros [H1|num H1 H2|num den H1 H2 H3]; rewrite H1; simpl; try done;
    rewrite H2; simpl; done.
Qed.

Lemma save_items_app {Image Metadata : Type}
    (save_error : gmap string Image -> Image -> string -> option exn)
    (resolve : string -> string)
    output_folder (before after : list (TileKey * (Image * Metadata))) w w' :
  save_items save_error resolve output_folder before w = (Ok tt, w') ->
  save_items save_error resolve output_folder (before ++ after)%list w
  = save_items save_error resolve output_folder after w'.
Proof.
  revert w. induction before as [|[key [img metadata]] before IH];
    intros w; simpl.
  - by intros [= ->].
  - rewrite !M_bind_run.
    destruct (Image_save save_error resolve img _ w) as [[[]|e] w1]; [|done].
    apply IH.
Qed.

Lemma save_all_raises {Image Metadata : Type}
    (save_error : gmap string Image -> Image -> string -> option exn)
    (resolve : string -> string)
    (self : VirtualCube Image Metadata) output_folder w e w' :
  save_all_failure save_error resolve self output_folder w e w' ->
  save_all save_error resolve self output_folder w = (Raise e, w').
Proof.
  intros [before key img metadata after Htiles Hbefore Hfail].
  unfold save_all. rewrite M_bind_run, Htiles.
  rewrite (save_items_app _ _ _ _ _ _ _ Hbefore). simpl.
  rewrite M_bind_run, (Image_save_fails _ _ _ _ _ _ Hfail). done.
Qed.

(** C8. No operation catches or changes an error. When an evaluated
    expression or the array arithmetic fails, [compute_index] and
    [compute_ndvi] raise that very exception; when a write fails,
    [save_tile_image] and [save_all] raise it, [save_all] after the writes
    that came before; when a library call of a fetch fails, the fetch raises
    it. *)
Theorem errors_propagate :
  (forall py_eval nir_array red_array numerator denominator e,
     index_failure py_eval nir_array red_array numerator denominator e ->
     compute_index py_eval nir_array red_array numerator denominator
     = Raise e)
  /\ (forall nir_array red_array e,
        ndvi_failure nir_array red_array e ->
        compute_ndvi nir_array red_array = Raise e)
  /\ (forall (Image : Type) save_error resolve (image : Image) x y z
        output_folder w e,
        save_error (files w) image
          (output_folder ++ "/tile_" ++ py_str_int z ++ "_" ++ py_str_int x
             ++ "_" ++ py_str_int y ++ ".png") = Some e ->
        save_tile_image save_error resolve image x y z output_folder w
        = (Raise e, w))
  /\ (forall (Image : Type) save_error resolve (image : Image) x y z
        output_folder w e,
        save_error (files w) image
          (output_folder ++ "/tile_" ++ py_str_int x ++ "_" ++ py_str_int y
             ++ "_" ++ py_str_int z ++ ".png") = Some e ->
        trial_save_tile_image save_error resolve image x y z output_folder w
        = (Raise e, w))
  /\ (forall (Image Metadata : Type) save_error resolve
        (self : VirtualCube Image Metadata) output_folder w e w',
        save_all_failure save_error resolve self output_folder w e w' ->
        save_all save_error resolve self output_folder w = (Raise e, w'))
  /\ (forall (Image Feature Processor Loop : Type) mercantile_tile
        (TileProcessor_new : result Processor) (get_event_loop : result Loop)
        (run_cached_generate_tile :
           Loop -> Processor -> TileRequest
           -> result (list Byte.byte * Feature))
        (Image_open : list Byte.byte -> result Image)
        lat lon zoom start_date end_date cloud_cover band1 band2 formula
        colormap_str e,
        fetch_failure mercantile_tile TileProcessor_new get_event_loop
          run_cached_generate_tile Image_open lat lon zoom
          (fun x y z => mkRequest x y z start_date end_date cloud_cover
                          band1 band2 formula colormap_str) e ->
        fetch_index_tile mercantile_tile TileProcessor_new get_event_loop
          run_cached_generate_tile Image_open lat lon zoom start_date
          end_date cloud_cover band1 band2 formula colormap_str = Raise e)
  /\ (forall (Image Feature Processor Loop : Type) mercantile_tile
        (TileProcessor_new : result Processor) (get_event_loop : result Loop)
        (run_cached_generate_tile :
           Loop -> Processor -> TileRequest
           -> result (list Byte.byte * Feature))
        (Image_open : list Byte.byte -> result Image)
        lat lon zoom start_date end_date cloud_cover e,
        fetch_failure mercantile_tile TileProcessor_new get_event_loop
          run_cached_generate_tile Image_open lat lon zoom
          (ndvi_request start_date end_date cloud_cover) e ->
        fetch_ndvi_tile mercantile_tile TileProcessor_new get_event_loop
          run_cached_generate_tile Image_open lat lon zoom start_date
          end_date cloud_cover = Raise e).
Proof.
  split; [exact compute_index_raises|].
  split; [exact compute_ndvi_raises|].
  split.
  { intros Image save_error resolve image x y z output_folder w e Hfail.
    unfold save_tile_image, tile_filename.
    by rewrite M_bind_run, (Image_save_fails _ _ _ _ _ _ Hfail). }
  split.
  { intros Image save_error resolve image x y z output_folder w e Hfail.
    unfold trial_save_tile_image, trial_tile_filename.
    by rewrite M_bind_run, (Image_save_fails _ _ _ _ _ _ Hfail). }
  split; [intros; by apply save_all_raises|].
  split; intros.
  - by apply fetch_index_tile_raises.
  - by apply fetch_ndvi_tile_raises.
Qed.

(** ** Rounding *)

Local Open Scope Z_scope.

Section Rounding.
Variables prec emax : Z.
Hypothesis prec_pos : 0 < prec.

Lemma digits2_pos_bounds (m : positive) :
  2 ^ (Zpos (digits2_pos m) - 1) <= Zpos m < 2 ^ Zpos (digits2_pos m).
Proof.
  induction m as [m IH|m IH|]; simpl digits2_pos.
  - rewrite Pos2Z.inj_succ, Z.pow_succ_r by lia.
    replace (Z.succ (Zpos (digits2_pos m)) - 1)
      with (Z.succ (Zpos (digits2_pos m) - 1)) by lia.
    rewrite Z.pow_succ_r by lia. lia.
  - rewrite Pos2Z.inj_succ, Z.pow_succ_r by lia.
    replace (Z.succ (Zpos (digits2_pos m)) - 1)
      with (Z.succ (Zpos (digits2_pos m) - 1)) by lia.
    rewrite Z.pow_succ_r by lia. lia.
  - simpl. lia.
Qed.

Lemma shr_1_lower (k : Z) (r : shr_record) :
  0 <= k -> 2 ^ (k + 1) <= shr_m r -> 2 ^ k <= shr_m (shr_1 r).
Proof.
  intros Hk. destruct r as [m b s]; simpl.
  rewrite Z.pow_add_r by lia. change (2 ^ 1) with 2.
  assert (0 < 2 ^ k) by (apply Z.pow_pos_nonneg; lia).
  destruct m as [|[p|p|]|p]; simpl; lia.
Qed.

Lemma shr_1_nonneg (r : shr_record) : 0 <= shr_m r -> 0 <= shr_m (shr_1 r).
Proof. destruct r as [m b s]; simpl. destruct m as [|[p|p|]|p]; simpl; lia. Qed.

Lemma iter_shr_1_lower (p : positive) (k : Z) (r : shr_record) :
  0 <= k -> 2 ^ (k + Zpos p) <= shr_m r ->
  2 ^ k <= shr_m (SpecFloat.iter_pos shr_1 p r).
Proof.
  revert k r. induction p as [p IH|p IH|]; intros k r Hk Hr; simpl.
  - apply IH; [done|]. apply IH; [lia|]. apply shr_1_lower; [lia|].
    replace (k + Zpos p + Zpos p + 1) with (k + Zpos p~1) by lia. done.
  - apply IH; [done|]. apply IH; [lia|].
    replace (k + Zpos p + Zpos p) with (k + Zpos p~0) by lia. done.
  - by apply shr_1_lower.
Qed.

Lemma iter_shr_1_nonneg (p : positive) (r : shr_record) :
  0 <= shr_m r -> 0 <= shr_m (SpecFloat.iter_pos shr_1 p r).
Proof.
  revert r. induction p as [p IH|p IH|]; intros r Hr; simpl.
  - apply IH, IH. by apply shr_1_nonneg.
  - by apply IH, IH.
  - by apply shr_1_nonneg.
Qed.

Lemma shr_record_of_loc_m (m : Z) (l : location) :
  shr_m (shr_record_of_loc m l) = m.
Proof. by destruct l as [|[]]. Qed.

(** The exponent [shr_fexp] returns is never below [emin], and the mantissa
    stays nonnegative. *)
Lemma shr_fexp_bounds (m e : Z) (l : location) :
  0 <= m ->
  0 <= shr_m (shr_fexp prec emax m e l).1
  /\ emin prec emax <= (shr_fexp prec emax m e l).2.
Proof.
  intros Hm. unfold shr_fexp, shr, fexp.
  destruct (Z.max (Zdigits2 m + e - prec) (emin prec emax) - e)
    as [|p|p] eqn:Hn; simpl; rewrite ?shr_record_of_loc_m.
  - lia.
  - split; [|lia].
    apply iter_shr_1_nonneg. by rewrite shr_record_of_loc_m.
  - lia.
Qed.

(** A positive mantissa at an exponent of the format keeps a positive
    mantissa. *)
Lemma shr_fexp_pos (m e : Z) (l : location) :
  0 < m -> emin prec emax <= e ->
  0 < shr_m (shr_fexp prec emax m e l).1.
Proof.
  intros Hm He. unfold shr_fexp, shr, fexp.
  destruct m as [|pm|pm]; [lia| |lia]. simpl Zdigits2.
  pose proof (digits2_pos_bounds pm) as [Hlow _].
  destruct (Z.max (Zpos (digits2_pos pm) + e - prec) (emin prec emax) - e)
    as [|p|p] eqn:Hn; simpl; rewrite ?shr_record_of_loc_m; try lia.
  assert (2 ^ 0 <= shr_m (SpecFloat.iter_pos shr_1 p (shr_record_of_loc (Zpos pm) l)))
    as Hone; [|simpl in Hone; lia].
  apply iter_shr_1_lower; [lia|]. rewrite shr_record_of_loc_m.
  etrans; [|exact Hlow]. apply Z.pow_le_mono_r; lia.
Qed.

Lemma round_nearest_even_bounds (m : Z) (l : location) :
  m <= round_nearest_even m l <= m + 1.
Proof.
  unfold round_nearest_even. destruct l as [|[]]; try lia.
  destruct (Z.even m); lia.
Qed.

(** What rounding a nonnegative mantissa gives. *)
Lemma binary_round_aux_cases (sx : bool) (m e : Z) (l : location) :
  0 <= m ->
  let r := binary_round_aux prec emax sx m e l in
  (r = S754_zero sx \/ r = S754_infinity sx
   \/ exists m' e', r = S754_finite sx m' e' /\ emin prec emax <= e')
  /\ (0 < m -> emin prec emax <= e -> is_zero r = false).
Proof.
  intros Hm. unfold binary_round_aux.
  pose proof (shr_fexp_bounds m e l Hm) as [Hm1 He1].
  pose proof (fun H1 H2 => shr_fexp_pos m e l H1 H2) as Hpos1.
  destruct (shr_fexp prec emax m e l) as [r1 e1]; simpl in *.
  set (m2 := round_nearest_even (shr_m r1) (loc_of_shr_record r1)).
  pose proof (round_nearest_even_bounds (shr_m r1) (loc_of_shr_record r1))
    as Hround. fold m2 in Hround.
  assert (0 <= m2) as Hm2 by lia.
  pose proof (shr_fexp_bounds m2 e1 loc_Exact Hm2) as [Hm3 He3].
  pose proof (fun H1 => shr_fexp_pos m2 e1 loc_Exact H1 He1) as Hpos2.
  destruct (shr_fexp prec emax m2 e1 loc_Exact) as [r3 e3]; simpl in *.
  destruct (shr_m r3) as [|m3|m3] eqn:Hr3; [| |lia].
  - split; [by left|]. intros H1 H2. specialize (Hpos1 H1 H2).
    assert (0 < m2) as H3 by lia. specialize (Hpos2 H3). lia.
  - split; [|by destruct (e3 <=? emax - prec)].
    destruct (e3 <=? emax - prec); [|by right; left].
    right; right. by exists m3, e3.
Qed.

Lemma shl_align_exponent (mx : positive) (ex ex' : Z) :
  (shl_align mx ex ex').2 = Z.min ex ex'.
Proof. unfold shl_align. destruct (ex' - ex) eqn:H; simpl; lia. Qed.

Lemma binary_round_cases (sx : bool) (m : positive) (e : Z) :
  let r := binary_round prec emax sx m e in
  (r = S754_zero sx \/ r = S754_infinity sx
   \/ exists m' e', r = S754_finite sx m' e' /\ emin prec emax <= e')
  /\ (emin prec emax <= e -> is_zero r = false).
Proof.
  unfold binary_round.
  pose proof (shl_align_exponent m e
                (fexp prec emax (Zpos (digits2_pos m) + e))) as Hexp.
  destruct (shl_align m e _) as [mz ez]; simpl in Hexp.
  destruct (binary_round_aux_cases sx (Zpos mz) ez loc_Exact) as [H1 H2];
    [lia|].
  split; [exact H1|]. intros He. apply H2; [lia|].
  unfold fexp in Hexp. lia.
Qed.

(** Normalising a nonnegative integer mantissa. *)
Lemma binary_normalize_nonneg (m e : Z) :
  0 <= m ->
  let r := binary_normalize prec emax m e false in
  nonneg r = true /\ exp_bounded prec emax r
  /\ (0 < m -> emin prec emax <= e -> is_zero r = false).
Proof.
  intros Hm. destruct m as [|pm|pm]; simpl; [by repeat split; try lia|  |lia].
  destruct (binary_round_cases false pm e) as [[->|[->|(m'&e'&->&He')]] Hnz];
    by repeat split; auto.
Qed.

(** The sum of two floats that are not negative. *)
Lemma SFadd_nonneg (x y : spec_float) :
  nonneg x = true -> nonneg y = true ->
  exp_bounded prec emax x -> exp_bounded prec emax y ->
  let r := SFadd prec emax x y in
  nonneg r = true /\ exp_bounded prec emax r
  /\ (is_zero y = false -> is_zero r = false).
Proof.
  destruct x as [sx|sx| |sx mx ex], y as [sy|sy| |sy my ey]; simpl;
    try done; intros Hx Hy Hex Hey;
    try (apply negb_true_iff in Hx; subst sx);
    try (apply negb_true_iff in Hy; subst sy); simpl; try done.
  - by destruct sx, sy.
  - destruct (binary_round_cases false
                ((shl_align mx ex (Z.min ex ey)).1
                 + (shl_align my ey (Z.min ex ey)).1) (Z.min ex ey))
      as [[->|[->|(m'&e'&->&He')]] Hnz]; repeat split; try done;
      intros _; apply Hnz; lia.
Qed.
End Rounding.

(** ** The index *)

Lemma valid_binary_exp_bounded (prec emax : Z) (x : spec_float) :
  valid_binary prec emax x = true -> exp_bounded prec emax x.
Proof.
  destruct x as [| | |s m e]; simpl; try done.
  unfold bounded, canonical_mantissa, fexp.
  intros [Hcan _]%andb_true_iff. apply Z.eqb_eq in Hcan. lia.
Qed.

Lemma F32_prec_pos : 0 < F32.prec.
Proof. reflexivity. Qed.

Lemma F32_of_Z_nonneg (n : Z) : 0 <= n -> nonneg32 (F32.of_Z n).
Proof.
  intros Hn.
  destruct (binary_normalize_nonneg F32.prec F32.emax F32_prec_pos n 0 Hn)
    as (?&?&_).
  by split.
Qed.

Lemma F32_of_f64_nonneg (x : spec_float) :
  nonneg x = true -> nonneg32 (F32.of_f64 x).
Proof.
  destruct x as [s|s| |s m e]; simpl; try done.
  intros ->%negb_true_iff. simpl.
  destruct (binary_normalize_nonneg F32.prec F32.emax F32_prec_pos (Zpos m) e)
    as (?&?&_); [lia|]. by split.
Qed.

Lemma astype_float32_length (a : ndarray) :
  length (astype_float32 a) = array_size a.
Proof. destruct a; simpl; by rewrite ?length_map. Qed.

Lemma astype_float32_nonneg (a : ndarray) :
  nonneg_band a -> Forall nonneg32 (astype_float32 a).
Proof.
  destruct a as [data|data|data]; simpl; intros Hdata.
  - apply Forall_map. eapply Forall_impl; [exact Hdata|].
    intros n Hn. by apply F32_of_Z_nonneg.
  - eapply Forall_impl; [exact Hdata|]. intros x [Hx Hv].
    split; [done | by apply valid_binary_exp_bounded].
  - apply Forall_map. eapply Forall_impl; [exact Hdata|].
    intros x Hx. by apply F32_of_f64_nonneg.
Qed.

Lemma eps32_value : eps32 = S754_finite false 8796093 (-43).
Proof. reflexivity. Qed.

(** Python reads [1e-6] as the double nearest to one millionth. *)
Lemma eps64_value : eps64 = F64.div (F64.of_Z 1) (F64.of_Z 1000000).
Proof. reflexivity. Qed.

Lemma F32_add_nonneg (x y : spec_float) :
  nonneg32 x -> nonneg32 y -> nonneg32 (F32.add x y).
Proof.
  intros [Hx Hex] [Hy Hey].
  destruct (SFadd_nonneg F32.prec F32.emax F32_prec_pos x y Hx Hy Hex Hey)
    as (?&?&_).
  by split.
Qed.

Lemma F32_add_eps_nonzero (x : spec_float) :
  nonneg32 x -> nonzero (F32.add x eps32).
Proof.
  intros [Hx Hex].
  destruct (SFadd_nonneg F32.prec F32.emax F32_prec_pos x eps32 Hx)
    as (_&_&Hnz);
    try done.
  by apply Hnz.
Qed.

Section Broadcast.
Variable f : spec_float -> spec_float -> spec_float.
Implicit Types a b c : list spec_float.

Lemma zip_with_f_length a b :
  length a = length b -> length (zip_with_f f a b) = length a.
Proof.
  revert b. induction a as [|x a IH]; intros [|y b]; simpl; try done.
  intros [= Hlen]. by rewrite IH.
Qed.

Lemma broadcast2_same_length a b :
  length a = length b -> broadcast2 f a b = Ok (zip_with_f f a b).
Proof.
  intros Hlen. unfold broadcast2.
  by rewrite (proj2 (Nat.eqb_eq _ _) Hlen).
Qed.

Lemma zip_with_f_Forall (P Q : spec_float -> Prop) a b :
  (forall x y, P x -> P y -> Q (f x y)) ->
  Forall P a -> Forall P b -> Forall Q (zip_with_f f a b).
Proof.
  intros Hf Ha. revert b. induction Ha as [|x a Hx Ha IH];
    intros [|y b] Hb; simpl; try by constructor.
  inversion Hb; subst. constructor; auto.
Qed.

(** Whatever shape the operands have, a result of [broadcast2] is made of
    values of [f] on their elements. *)
Lemma broadcast2_Forall (P Q : spec_float -> Prop) a b c :
  (forall x y, P x -> P y -> Q (f x y)) ->
  Forall P a -> Forall P b -> broadcast2 f a b = Ok c -> Forall Q c.
Proof.
  intros Hf Ha Hb. unfold broadcast2.
  destruct (Nat.eqb (length a) (length b)).
  { intros [= <-]. by apply zip_with_f_Forall with (P := P). }
  destruct a as [|x [|x' a]].
  - destruct b as [|y [|y' b]]; try done. intros [= <-]. constructor.
  - intros [= <-]. apply Forall_map. eapply Forall_impl; [exact Hb|].
    intros y Hy. apply Hf; [|done]. by inversion Ha.
  - destruct b as [|y [|y' b]]; try done.
    assert (Forall Q (map (fun x0 => f x0 y) (x :: x' :: a))) as Hc.
    { apply Forall_map. eapply Forall_impl; [exact Ha|].
      intros x0 Hx0. apply Hf; [done|]. by inversion Hb. }
    by intros [= <-].
Qed.
End Broadcast.

Lemma ndvi_eps_zip (nir red : list spec_float) :
  length nir = length red ->
  zip_with_f F32.div (zip_with_f F32.sub nir red)
    (map (fun x => F32.add x eps32) (zip_with_f F32.add nir red))
  = zip_with_f ndvi_eps nir red.
Proof.
  revert red. induction nir as [|x nir IH]; intros [|y red]; simpl;
    try done.
  intros [= Hlen]. by rewrite IH.
Qed.

(** [compute_ndvi] on bands of one length. *)
Lemma compute_ndvi_same_length (nir_array red_array : ndarray) :
  array_size nir_array = array_size red_array ->
  compute_ndvi nir_array red_array
  = Ok (VArray (zip_with_f ndvi_eps (astype_float32 nir_array)
                  (astype_float32 red_array))).
Proof.
  intros Hsize. rewrite <- !astype_float32_length in Hsize.
  unfold compute_ndvi, ndvi_denominator, py_sub, py_add, py_binop.
  rewrite !broadcast2_same_length by done. simpl.
  unfold py_div, py_binop.
  rewrite broadcast2_same_length
    by (by rewrite length_map, !zip_with_f_length). simpl.
  fold eps32. by rewrite ndvi_eps_zip.
Qed.

(** What the default formulas evaluate to, once the bands are renamed. *)
Lemma arith_eval_default_numerator (b1 b2 : list spec_float) :
  arith_eval (rename_bands default_numerator)
    [("b1", VArray b1); ("b2", VArray b2)]
  = Some (py_sub (VArray b2) (VArray b1)).
Proof. reflexivity. Qed.

Lemma arith_eval_default_denominator (b1 b2 : list spec_float) (num : value) :
  arith_eval (rename_bands default_denominator)
    [("b1", VArray b1); ("b2", VArray b2); ("num", num)]
  = Some (py_add (VArray b2) (VArray b1)).
Proof. reflexivity. Qed.

(** With its default formulas [compute_index] is [compute_ndvi]. *)
Lemma compute_index_default (py_eval : string -> env -> result value)
    (nir_array red_array : ndarray) :
  extends_arith_eval py_eval ->
  compute_index py_eval nir_array red_array default_numerator
    default_denominator
  = compute_ndvi nir_array red_array.
Proof.
  intros Hext. unfold compute_index, index_denominator, compute_ndvi,
    ndvi_denominator.
  rewrite (Hext _ _ _ (arith_eval_default_numerator _ _)).
  destruct (py_sub _ _) as [num|e]; simpl; [|done].
  by rewrite (Hext _ _ _ (arith_eval_default_denominator _ _ num)).
Qed.

(** C2. On bands of one length [compute_ndvi], and [compute_index] with its
    default numerator and denominator, return for each pixel
    [(NIR - Red) / (NIR + Red + 1e-6)] in [float32] arithmetic: the glossary's
    formula with [1e-6] added to the divisor. *)
Theorem index_is_ndvi_with_epsilon (py_eval : string -> env -> result value)
    (nir_array red_array : ndarray) :
  extends_arith_eval py_eval ->
  array_size nir_array = array_size red_array ->
  compute_ndvi nir_array red_array
  = Ok (VArray (zip_with_f ndvi_eps (astype_float32 nir_array)
                  (astype_float32 red_array)))
  /\ compute_index py_eval nir_array red_array default_numerator
       default_denominator
     = Ok (VArray (zip_with_f ndvi_eps (astype_float32 nir_array)
                     (astype_float32 red_array))).
Proof.
  intros Hext Hsize. rewrite compute_index_default by done.
  split; by apply compute_ndvi_same_length.
Qed.

Lemma add_epsilon_nonzero (den : list spec_float) :
  Forall nonneg32 den ->
  py_add (VArray den) (VFloat eps64)
  = Ok (VArray (map (fun x => F32.add x eps32) den))
  /\ Forall nonzero (map (fun x => F32.add x eps32) den).
Proof.
  intros Hden. split; [reflexivity|].
  apply Forall_map. eapply Forall_impl; [exact Hden|].
  intros x Hx. by apply F32_add_eps_nonzero.
Qed.

Lemma py_add_arrays (a b : list spec_float) :
  py_add (VArray a) (VArray b)
  = match broadcast2 F32.add a b with
    | Ok c => Ok (VArray c)
    | Raise e => Raise e
    end.
Proof. reflexivity. Qed.

Lemma ndvi_denominator_nonzero (nir red : list spec_float) (den : value) :
  Forall nonneg32 nir -> Forall nonneg32 red ->
  ndvi_denominator nir red = Ok den ->
  exists a, den = VArray a /\ Forall nonzero a.
Proof.
  intros Hnir Hred. unfold ndvi_denominator. rewrite py_add_arrays.
  destruct (broadcast2 F32.add nir red) as [s|e] eqn:Hs;
    [|intros [=]].
  assert (Forall nonneg32 s) as Hsum.
  { eapply (broadcast2_Forall F32.add nonneg32); [|exact Hnir|exact Hred|done].
    apply F32_add_nonneg. }
  destruct (add_epsilon_nonzero s Hsum) as [Hadd Hnz].
  change (py_add (VArray s) (VFloat eps64) = Ok den -> exists a,
            den = VArray a /\ Forall nonzero a).
  rewrite Hadd. intros [= <-]. eauto.
Qed.

(** X19. The divisor is never zero when nothing under it is negative: for
    bands without negative values the divisor [nir + red + 1e-6] of
    [compute_ndvi] has no zero; so has the divisor of [compute_index]
    whenever its denominator evaluates to an array without negative values,
    as the default denominator does on such bands. *)
Theorem divisor_not_zero :
  (forall nir_array red_array den,
     nonneg_band nir_array -> nonneg_band red_array ->
     ndvi_denominator (astype_float32 nir_array) (astype_float32 red_array)
     = Ok den ->
     exists a, den = VArray a /\ Forall nonzero a)
  /\ (forall py_eval b1 b2 num denominator den0,
        py_eval (rename_bands denominator)
          [("b1", VArray b1); ("b2", VArray b2); ("num", num)]
        = Ok (VArray den0) ->
        Forall (fun x => nonneg x = true
                         /\ valid_binary F32.prec F32.emax x = true) den0 ->
        exists a,
          index_denominator py_eval b1 b2 num denominator = Ok (VArray a)
          /\ Forall nonzero a)
  /\ (forall py_eval nir_array red_array num den,
        extends_arith_eval py_eval ->
        nonneg_band nir_array -> nonneg_band red_array ->
        index_denominator py_eval (astype_float32 red_array)
          (astype_float32 nir_array) num default_denominator = Ok den ->
        exists a, den = VArray a /\ Forall nonzero a).
Proof.
  split; [|split].
  - intros nir_array red_array den Hnir Hred.
    apply ndvi_denominator_nonzero; by apply astype_float32_nonneg.
  - intros py_eval b1 b2 num denominator den0 Heval Hden0.
    unfold index_denominator. rewrite Heval.
    destruct (add_epsilon_nonzero den0) as [Hadd Hnz].
    { eapply Forall_impl; [exact Hden0|]. intros x [Hx Hv].
      split; [done | by apply valid_binary_exp_bounded]. }
    eexists. split; [exact Hadd | exact Hnz].
  - intros py_eval nir_array red_array num den Hext Hnir Hred.
    unfold index_denominator.
    rewrite (Hext _ _ _ (arith_eval_default_denominator _ _ num)).
    apply ndvi_denominator_nonzero; by apply astype_float32_nonneg.
Qed.

Lemma arith_eval_total_extends : extends_arith_eval arith_eval_total.
Proof. intros s rho r Heval. unfold arith_eval_total. by rewrite Heval. Qed.

(** ** Instances *)

Local Open Scope string_scope.

(** C9 at a cube that holds an NDVI tile and is asked for an NDWI tile. *)
Lemma get_tile_missing_witness :
  (make_key (1, 2, 3) "ndwi"
     ∉ list_tiles (add_tile (Metadata := string) VirtualCube_init "ndvi"
                     "image" "feature" (1, 2, 3)))
  /\ get_tile (add_tile (Metadata := string) VirtualCube_init "ndvi"
                 "image" "feature" (1, 2, 3)) "ndwi" (1, 2, 3) = None.
Proof.
  assert (make_key (1, 2, 3) "ndwi"
            ∉ list_tiles (add_tile (Metadata := string) VirtualCube_init
                            "ndvi" "image" "feature" (1, 2, 3))) as Hnin.
  { simpl. intros Hin. apply list_elem_of_singleton in Hin. discriminate. }
  split; [exact Hnin | exact (get_tile_missing _ _ _ Hnin)].
Defined.

(** C7 at a cube with an NDVI tile: an NDWI tile is added, then everything is
    saved. *)
Lemma virtual_cube_never_evicts_witness :
  let cube := add_tile (Metadata := string) VirtualCube_init "ndvi" "image"
                "feature" (1, 2, 3) in
  get_tile (add_tile cube "ndwi" "image'" "feature'" (1, 2, 3)) "ndvi"
    (1, 2, 3) = get_tile cube "ndvi" (1, 2, 3)
  /\ make_key (1, 2, 3) "ndvi" ∈ list_tiles (cube_after cube (CallSaveAll ".")).
Proof.
  intros cube.
  destruct (virtual_cube_never_evicts cube "ndwi" "image'" "feature'"
              (1, 2, 3) "ndvi" (1, 2, 3)) as [Hframe Hkept].
  split.
  - apply Hframe. discriminate.
  - apply (Hkept (CallSaveAll ".") ("image", "feature")). reflexivity.
Defined.

(** C5 at the tile (1, 2, 3), written into an empty current folder. *)
Lemma save_tile_image_file_witness :
  save_tile_image (fun _ _ _ => None) id "image" 1 2 3 "." (mkWorld ∅ [])
  = (Ok tt, mkWorld (<["./tile_3_1_2.png" := "image"]> ∅)
              ["Saved tile image as: ./tile_3_1_2.png"])
  /\ trial_save_tile_image (fun _ _ _ => None) id "image" 1 2 3 "."
       (mkWorld ∅ [])
     = (Ok tt, mkWorld (<["./tile_1_2_3.png" := "image"]> ∅)
                 ["Saved tile image as: ./tile_1_2_3.png"]).
Proof.
  destruct (save_tile_image_file (fun _ _ _ => None) id "image" 1 2 3 "."
              (mkWorld ∅ [])) as [Hmain Htrial].
  split; [exact (Hmain eq_refl) | exact (Htrial eq_refl)].
Defined.

(** C6 at a cube of two tiles of one place. *)
Lemma save_all_files_witness :
  let cube := add_tile (add_tile (Metadata := string) VirtualCube_init "ndvi"
                          "image" "feature" (1, 2, 3))
                "ndwi" "image'" "feature'" (1, 2, 3) in
  exists w',
    save_all (fun _ _ _ => None) id cube "out" (mkWorld ∅ []) = (Ok tt, w')
    /\ files w' !! "out/ndvi_3_1_2.png" = Some "image"
    /\ files w' !! "out/ndwi_3_1_2.png" = Some "image'"
    /\ stdout w' = ["Saved 2 tiles to out"].
Proof.
  intros cube.
  assert (dict_wf (tiles cube)) as Hwf.
  { unfold cube, add_tile. cbn [tiles].
    do 2 apply dict_wf_set. apply NoDup_nil_2. }
  assert (NoDup (map id (map (cube_filename "out") (list_tiles cube))))
    as Hnd.
  { rewrite map_id. by apply cube_filenames_NoDup. }
  destruct (save_all_files (fun _ _ _ => None) id cube "out" (mkWorld ∅ []) Hnd)
    as (w' & Hrun & Hfile & _ & _ & Hout); [done|].
  exists w'. split; [exact Hrun|]. split; [|split].
  - apply (Hfile 1 2 3 "ndvi" "image" "feature"). reflexivity.
  - apply (Hfile 1 2 3 "ndwi" "image'" "feature'"). reflexivity.
  - exact Hout.
Defined.

(** C4 with a projection that answers the tile (2389, 1556, 12) and an engine
    that answers one byte and a feature. *)
Lemma fetch_tile_result_witness :
  let tile := fun (_ _ : spec_float) (zoom : Z) => Ok (2389, 1556, zoom) in
  let engine := fun (_ _ : unit) (_ : TileRequest) =>
                  Ok ([Byte.x89], "feature") in
  let open := fun _ : list Byte.byte => Ok "image" in
  fetch_index_tile tile (Ok tt) (Ok tt) engine open (F64.of_Z 45)
    (F64.of_Z 30) 12 default_start_date default_end_date default_cloud_cover
    default_band1 default_band2 default_formula default_colormap_str
  = Ok (PTuple [PImage "image"; PFeature "feature";
                PTuple [PInt 2389; PInt 1556; PInt 12]])
  /\ fetch_ndvi_tile tile (Ok tt) (Ok tt) engine open (F64.of_Z 45)
       (F64.of_Z 30) 12 default_start_date default_end_date
       default_cloud_cover
     = Ok (PTuple [PImage "image"; PFeature "feature"]).
Proof.
  intros tile engine open.
  destruct (fetch_tile_result tile (Ok tt) (Ok tt) engine open (F64.of_Z 45)
              (F64.of_Z 30) 12 default_start_date default_end_date
              default_cloud_cover default_band1 default_band2 default_formula
              default_colormap_str 2389 1556 12 tt tt [Byte.x89] "feature"
              "image" eq_refl eq_refl eq_refl eq_refl) as [Hindex Hndvi].
  split; [exact (Hindex eq_refl) | exact (Hndvi eq_refl)].
Defined.

(** C8 where each operation fails: bands of two and of three pixels, a disk
    that refuses every write, a latitude the projection rejects. *)
Lemma errors_propagate_witness :
  let full := fun (_ : gmap string string) (_ _ : string) =>
                Some (PyExc "OSError" "No space left on device") in
  let tile := fun (_ _ : spec_float) (_ : Z) =>
                Raise (PyExc "InvalidLatitudeError" "") in
  let engine := fun (_ _ : unit) (_ : TileRequest) =>
                  Ok ([Byte.x89], "feature") in
  let open := fun _ : list Byte.byte => Ok "image" in
  let cube := add_tile (Metadata := string) VirtualCube_init "ndvi" "image"
                "feature" (1, 2, 3) in
  compute_index arith_eval_total (IntArray [1; 2]) (IntArray [0; 0; 1])
    default_numerator default_denominator = Raise broadcast_error
  /\ compute_ndvi (IntArray [1; 2]) (IntArray [0; 0; 1])
     = Raise broadcast_error
  /\ save_tile_image full id "image" 1 2 3 "." (mkWorld ∅ [])
     = (Raise (PyExc "OSError" "No space left on device"), mkWorld ∅ [])
  /\ trial_save_tile_image full id "image" 1 2 3 "." (mkWorld ∅ [])
     = (Raise (PyExc "OSError" "No space left on device"), mkWorld ∅ [])
  /\ save_all full id cube "." (mkWorld ∅ [])
     = (Raise (PyExc "OSError" "No space left on device"), mkWorld ∅ [])
  /\ fetch_index_tile tile (Ok tt) (Ok tt) engine open (F64.of_Z 91)
       (F64.of_Z 30) 12 default_start_date default_end_date
       default_cloud_cover default_band1 default_band2 default_formula
       default_colormap_str = Raise (PyExc "InvalidLatitudeError" "")
  /\ fetch_ndvi_tile tile (Ok tt) (Ok tt) engine open (F64.of_Z 91)
       (F64.of_Z 30) 12 default_start_date default_end_date
       default_cloud_cover = Raise (PyExc "InvalidLatitudeError" "").
Proof.
  intros full tile engine open cube.
  destruct errors_propagate
    as (Hindex & Hndvi & Hsave & Htrial & Hall & Hfetch & Hfetch').
  split; [|split; [|split; [|split; [|split; [|split]]]]].
  - apply Hindex. apply numerator_fails. reflexivity.
  - apply Hndvi. apply ndvi_sub_fails. reflexivity.
  - apply Hsave. reflexivity.
  - apply Htrial. reflexivity.
  - apply Hall.
    apply (entry_write_fails full id cube "." (mkWorld ∅ []) _ (mkWorld ∅ []) []
             (1, 2, 3, "ndvi") "image" "feature" []); reflexivity.
  - apply Hfetch. apply projection_fails. reflexivity.
  - apply Hfetch'. apply projection_fails. reflexivity.
Defined.

(** C2 on two pixels. *)
Lemma index_is_ndvi_with_epsilon_witness :
  compute_ndvi (IntArray [3; 100]) (IntArray [1; 0])
  = Ok (VArray [S754_finite false 16777212 (-25);
                S754_finite false 8388608 (-23)])
  /\ compute_index arith_eval_total (IntArray [3; 100]) (IntArray [1; 0])
       default_numerator default_denominator
     = Ok (VArray [S754_finite false 16777212 (-25);
                   S754_finite false 8388608 (-23)]).
Proof.
  exact (index_is_ndvi_with_epsilon arith_eval_total (IntArray [3; 100])
           (IntArray [1; 0]) arith_eval_total_extends eq_refl).
Defined.

(** X19 on dark pixels: the divisor is [1e-6] itself. *)
Lemma divisor_not_zero_witness :
  nonneg_band (IntArray [0])
  /\ ndvi_denominator (astype_float32 (IntArray [0]))
       (astype_float32 (IntArray [0])) = Ok (VArray [eps32])
  /\ (exists a, VArray [eps32] = VArray a /\ Forall nonzero a)
  /\ (exists a,
        index_denominator arith_eval_total [F32.of_Z 0] [F32.of_Z 0]
          (VArray [F32.of_Z 0]) "band1*band2" = Ok (VArray a)
        /\ Forall nonzero a)
  /\ index_denominator arith_eval_total (astype_float32 (IntArray [0]))
       (astype_float32 (IntArray [0])) (VArray [F32.of_Z 0])
       default_denominator = Ok (VArray [eps32]).
Proof.
  destruct divisor_not_zero as (Hndvi & Hindex & Hdefault).
  assert (nonneg_band (IntArray [0])) as Hband.
  { simpl. constructor; [lia | constructor]. }
  split; [exact Hband|]. split; [reflexivity|]. split; [|split].
  - apply (Hndvi (IntArray [0]) (IntArray [0])); [exact Hband..|reflexivity].
  - apply (Hindex arith_eval_total _ _ _ _ [F32.of_Z 0]); [reflexivity|].
    constructor; [split; reflexivity | constructor].
  - destruct (Hdefault arith_eval_total (IntArray [0]) (IntArray [0])
                (VArray [F32.of_Z 0]) (VArray [eps32])
                arith_eval_total_extends Hband Hband eq_refl) as (a & _ & _).
    reflexivity.
Defined.

(** ** Where the specification and the code part *)

(** C2, refuted: for NIR 1 and Red 0 the glossary's NDVI is 1, and the code
    returns 0.99999905. *)
Lemma ndvi_formula_counterexample :
  zip_with_f ndvi_glossary (astype_float32 (IntArray [1]))
    (astype_float32 (IntArray [0])) = [F32.of_Z 1]
  /\ compute_ndvi (IntArray [1]) (IntArray [0])
     = Ok (VArray [S754_finite false 16777200 (-24)])
  /\ compute_index arith_eval_total (IntArray [1]) (IntArray [0])
       default_numerator default_denominator
     = Ok (VArray [S754_finite false 16777200 (-24)])
  /\ compute_ndvi (IntArray [1]) (IntArray [0])
     ≠ Ok (VArray (zip_with_f ndvi_glossary (astype_float32 (IntArray [1]))
                     (astype_float32 (IntArray [0]))))
  /\ compute_index arith_eval_total (IntArray [1]) (IntArray [0])
       default_numerator default_denominator
     ≠ Ok (VArray (zip_with_f ndvi_glossary (astype_float32 (IntArray [1]))
                     (astype_float32 (IntArray [0])))).
Proof. repeat split; try reflexivity; vm_compute; discriminate. Qed.

(** C3. The epsilon does not keep every divisor from zero: a NIR value of
    minus [1e-6] over a Red of 0 makes the divisor of [compute_ndvi] zero,
    and the result minus infinity; so does the denominator [band1-band2] in
    [compute_index] on a Red of 0 and a NIR of [1e-6]. *)
Lemma divisor_zero_at_minus_epsilon :
  ndvi_denominator (astype_float32 (Float32Array [SFopp eps32]))
    (astype_float32 (IntArray [0])) = Ok (VArray [S754_zero false])
  /\ compute_ndvi (Float32Array [SFopp eps32]) (IntArray [0])
     = Ok (VArray [S754_infinity true])
  /\ index_denominator arith_eval_total (astype_float32 (IntArray [0]))
       (astype_float32 (Float32Array [eps32])) (VArray [eps32])
       "band1-band2" = Ok (VArray [S754_zero false])
  /\ compute_index arith_eval_total (Float32Array [eps32]) (IntArray [0])
       default_numerator "band1-band2" = Ok (VArray [S754_infinity false])
  /\ is_zero (S754_zero false) = true.
Proof. repeat split; reflexivity. Qed.

(** C4, refuted: what [fetch_ndvi_tile] returns has two components, and no
    coordinates among them. *)
Lemma fetch_ndvi_tile_counterexample :
  let tile := fun (_ _ : spec_float) (zoom : Z) => Ok (2389, 1556, zoom) in
  let engine := fun (_ _ : unit) (_ : TileRequest) =>
                  Ok ([Byte.x89], "feature") in
  let open := fun _ : list Byte.byte => Ok "image" in
  exists o,
    fetch_ndvi_tile tile (Ok tt) (Ok tt) engine open (F64.of_Z 45)
      (F64.of_Z 30) 12 default_start_date default_end_date
      default_cloud_cover = Ok o
    /\ forall xyz, ~ image_feature_coords o xyz.
Proof.
  intros tile engine open.
  exists (PTuple [PImage "image"; PFeature "feature"]).
  split; [reflexivity|]. intros xyz (img & feature & Heq). discriminate.
Qed.

(** C5, refuted: for the tile x = 1, y = 2, z = 3 the [save_tile_image] of
    [Other_Trials/A4_utils] writes [./tile_1_2_3.png] and leaves no
    [./tile_3_1_2.png]. *)
Lemma trial_save_tile_image_counterexample :
  let w' := (trial_save_tile_image (fun _ _ _ => None) id "image" 1 2 3 "."
               (mkWorld ∅ [])).2 in
  files w' !! "./tile_1_2_3.png" = Some "image"
  /\ files w' !! "./tile_3_1_2.png" = None.
Proof.
  split.
  - apply lookup_insert_eq.
  - apply lookup_insert_None. split; [apply lookup_empty | discriminate].
Qed.

(** C6, refuted: of two entries named [ndvi] and [./ndvi] at one place
    [save_all] leaves a single file, holding the second image; and on a disk
    that refuses every write it leaves none and raises. *)
Lemma save_all_one_file_counterexample :
  let cube := add_tile (add_tile (Metadata := string) VirtualCube_init "ndvi"
                          "first" "feature" (1, 2, 3))
                "./ndvi" "second" "feature'" (1, 2, 3) in
  let w' := mkWorld (<["out/ndvi_3_1_2.png" := "second"]>
                       (<["out/ndvi_3_1_2.png" := "first"]> ∅))
              ["Saved 2 tiles to out"] in
  let full := fun (_ : gmap string string) (_ _ : string) =>
                Some (PyExc "OSError" "No space left on device") in
  length (list_tiles cube) = 2%nat
  /\ save_all (fun _ _ _ => None) drop_dot_segments cube "out" (mkWorld ∅ [])
     = (Ok tt, w')
  /\ size (files w') = 1%nat
  /\ files w' !! "out/ndvi_3_1_2.png" = Some "second"
  /\ save_all full id cube "out" (mkWorld ∅ [])
     = (Raise (PyExc "OSError" "No space left on device"), mkWorld ∅ []).
Proof.
  intros cube w' full. split; [reflexivity|]. split; [reflexivity|].
  split; [|split].
  - simpl. rewrite insert_insert_eq.
    rewrite map_size_insert_None by apply lookup_empty.
    by rewrite map_size_empty.
  - apply lookup_insert_eq.
  - reflexivity.
Qed.

(** * Further properties *)

(** ** The cube over a history of calls *)

Section CubeHistory.
Context {Image Metadata : Type}.
Implicit Types (self : VirtualCube Image Metadata) (name : string)
  (coords : Z * Z * Z) (image : Image) (metadata : Metadata)
  (calls : list (CubeCall Image Metadata)).

Lemma dict_set_set {K V : Type} `{EqDecision K} (d : list (K * V)) k v1 v2 :
  dict_set (dict_set d k v1) k v2 = dict_set d k v2.
Proof.
  induction d as [|[k' v'] d IH]; simpl.
  - by rewrite decide_True.
  - destruct (decide (k' = k)) as [->|Hne]; simpl.
    + by rewrite decide_True.
    + by rewrite decide_False, IH.
Qed.

Lemma get_tile_after_calls calls self name coords :
  get_tile (fold_left cube_after calls self) name coords
  = match last_added calls (make_key coords name) with
    | Some payload => Some payload
    | None => get_tile self name coords
    end.
Proof.
  revert self. induction calls as [|c calls IH]; intros self; simpl; [done|].
  rewrite IH. destruct (last_added calls _); [done|].
  destruct c as [n i m k| |n k|folder]; simpl; try done.
  destruct (decide (make_key k n = make_key coords name)) as [Heq|Hne].
  - unfold get_tile, add_tile; simpl. rewrite <- Heq.
    apply dict_get_set_eq.
  - unfold get_tile, add_tile; simpl. by apply dict_get_set_ne.
Qed.

(** X1. On an instance built by any sequence of method calls, [get_tile]
    returns the payload of the last [add_tile] made with that name and those
    coordinates, and [None] when there was none. *)
Theorem get_tile_is_last_add_tile calls name coords :
  get_tile (cube_run calls) name coords
  = last_added calls (make_key coords name).
Proof.
  unfold cube_run. rewrite get_tile_after_calls.
  by destruct (last_added calls _).
Qed.

Lemma cube_after_wf self (c : CubeCall Image Metadata) :
  dict_wf (tiles self) -> dict_wf (tiles (cube_after self c)).
Proof.
  intros Hwf. destruct c; simpl; try done. by apply dict_wf_set.
Qed.

(** X2. Whatever the calls, [list_tiles] never lists a key twice. *)
Theorem list_tiles_NoDup calls : NoDup (list_tiles (cube_run calls)).
Proof.
  unfold cube_run.
  assert (forall self, dict_wf (tiles self) ->
            dict_wf (tiles (fold_left cube_after calls self))) as Hfold.
  { induction calls as [|c calls IH]; intros self Hwf; simpl; [done|].
    by apply IH, cube_after_wf. }
  apply Hfold. apply NoDup_nil_2.
Qed.

(** X3. [add_tile] keeps the order of insertion: a new key goes to the end of
    [list_tiles], a key already stored leaves the list as it is. *)
Theorem list_tiles_add_tile self name image metadata coords :
  list_tiles (add_tile self name image metadata coords)
  = if decide (make_key coords name ∈ list_tiles self)
    then list_tiles self
    else (list_tiles self ++ [make_key coords name])%list.
Proof.
  unfold list_tiles, add_tile; simpl. case_decide.
  - by apply dict_keys_set_present.
  - by apply dict_keys_set_absent.
Qed.

(** X4. [list_tiles] lists exactly the keys for which [get_tile] finds a
    tile. *)
Theorem list_tiles_get_tile self name coords :
  make_key coords name ∈ list_tiles self
  <-> is_Some (get_tile self name coords).
Proof.
  unfold get_tile, list_tiles. rewrite <- not_eq_None_Some, dict_get_None.
  split; [by intros ? ?|]. apply dec_stable.
Qed.

(** X5. Two [add_tile] calls with one name and one coordinate triple leave
    the instance that the second call alone would leave. *)
Theorem add_tile_twice self name coords image1 metadata1 image2 metadata2 :
  add_tile (add_tile self name image1 metadata1 coords) name image2
    metadata2 coords
  = add_tile self name image2 metadata2 coords.
Proof. unfold add_tile; simpl. by rewrite dict_set_set. Qed.

(** X6. [add_tile] calls under different keys can be swapped: every
    [get_tile] answers the same, and the same keys are listed, up to their
    order. *)
Theorem add_tile_swap self name1 coords1 image1 metadata1
    name2 coords2 image2 metadata2 :
  make_key coords1 name1 ≠ make_key coords2 name2 ->
  let ab := add_tile (add_tile self name1 image1 metadata1 coords1)
              name2 image2 metadata2 coords2 in
  let ba := add_tile (add_tile self name2 image2 metadata2 coords2)
              name1 image1 metadata1 coords1 in
  (forall name coords, get_tile ab name coords = get_tile ba name coords)
  /\ list_tiles ab ≡ₚ list_tiles ba.
Proof.
  intros Hne ab ba. split.
  - intros name coords. unfold ab, ba, get_tile, add_tile; simpl.
    set (k := make_key coords name).
    destruct (decide (make_key coords1 name1 = k)) as [H1|H1],
             (decide (make_key coords2 name2 = k)) as [H2|H2].
    + congruence.
    + rewrite dict_get_set_ne by done. rewrite <- H1.
      by rewrite !dict_get_set_eq.
    + rewrite <- H2. rewrite dict_get_set_eq.
      rewrite dict_get_set_ne by done. by rewrite dict_get_set_eq.
    + by rewrite !dict_get_set_ne.
  - unfold ab, ba. rewrite !list_tiles_add_tile.
    set (k1 := make_key coords1 name1) in *.
    set (k2 := make_key coords2 name2) in *.
    destruct (decide (k1 ∈ list_tiles self)) as [I1|N1],
             (decide (k2 ∈ list_tiles self)) as [I2|N2].
    all: cbn beta iota.
    + by rewrite decide_True.
    + by rewrite decide_True by (apply elem_of_app; by left).
    + rewrite decide_True by (apply elem_of_app; by left).
      by rewrite decide_False.
    + rewrite !decide_False
        by (by intros [?|?%list_elem_of_singleton]%elem_of_app).
      rewrite <- !(assoc_L (++)). apply Permutation_app_head.
      apply Permutation_swap.
Qed.
End CubeHistory.

(** ** File names and writes *)

Lemma tile_filename_as_cube_filename output_folder x y z :
  tile_filename output_folder x y z
  = cube_filename output_folder (x, y, z, "tile").
Proof. reflexivity. Qed.

Lemma trial_tile_filename_as_cube_filename output_folder x y z :
  trial_tile_filename output_folder x y z
  = cube_filename output_folder (y, z, x, "tile").
Proof. reflexivity. Qed.

(** X7. In one folder [save_tile_image] gives different tiles different
    files, in [a_4_utils] and in [Other_Trials/A4_utils] alike; and the two
    versions name one file exactly when the coordinates of the one are those
    of the other rotated, [(z, x, y) = (x', y', z')]. *)
Theorem tile_filename_inj output_folder x y z x' y' z' :
  (tile_filename output_folder x y z = tile_filename output_folder x' y' z'
   <-> (x, y, z) = (x', y', z'))
  /\ (trial_tile_filename output_folder x y z
      = trial_tile_filename output_folder x' y' z'
      <-> (x, y, z) = (x', y', z'))
  /\ (tile_filename output_folder x y z
      = trial_tile_filename output_folder x' y' z'
      <-> (z, x, y) = (x', y', z')).
Proof.
  rewrite !tile_filename_as_cube_filename,
    !trial_tile_filename_as_cube_filename.
  repeat split; try (by intros [= -> -> ->]);
    intros Heq%cube_filename_inj; by inversion Heq.
Qed.

(** X8. The file name [save_all] gives an entry is the file name
    [save_tile_image] gives a tile exactly when the entry is named [tile] and
    has the coordinates of that tile. *)
Theorem cube_filename_is_tile_filename output_folder key x y z :
  cube_filename output_folder key = tile_filename output_folder x y z
  <-> key = (x, y, z, "tile").
Proof.
  rewrite tile_filename_as_cube_filename. split; [|by intros ->].
  apply cube_filename_inj.
Qed.

Section SaveFacts.
Context {Image Metadata : Type}.
Variable save_error : gmap string Image -> Image -> string -> option exn.
Variable resolve : string -> string.
Implicit Types (w : World Image) (self : VirtualCube Image Metadata)
  (items : list (TileKey * (Image * Metadata))).


(** Every file after the loop of [save_all], when no write fails: the image
    last written to it, or what it held. *)
Lemma save_items_lookup output_folder items w :
  (forall fs key img metadata,
     (key, (img, metadata)) ∈ items ->
     save_error fs img (cube_filename output_folder key) = None) ->
  exists w',
    save_items save_error resolve output_folder items w = (Ok tt, w')
    /\ stdout w' = stdout w
    /\ forall p,
         files w' !! p
         = match last_written resolve output_folder items p with
           | Some img => Some img
           | None => files w !! p
           end.
Proof.
  revert w. induction items as [|[key [img metadata]] items IH];
    intros w Hok.
  - by exists w.
  - destruct (IH (mkWorld (<[resolve (cube_filename output_folder key)
                             := img]> (files w)) (stdout w)))
      as (w' & Hrun & Hout & Hfiles).
    { intros fs k i m Hin. apply (Hok fs k i m). by apply list_elem_of_further. }
    exists w'. split.
    { simpl. rewrite M_bind_run, Image_save_ok; [done|].
      apply (Hok _ key img metadata), list_elem_of_here. }
    split; [done|]. intros p. rewrite Hfiles. simpl.
    destruct (last_written resolve output_folder items p); [done|].
    case_decide as Hp.
    + subst p. apply lookup_insert_eq.
    + by apply lookup_insert_ne.
Qed.


(** X10. Saving twice changes no file the first [save_all] left: when no
    write fails, the files after a second [save_all] are those after the
    first. *)
Theorem save_all_twice self output_folder w :
  dict_wf (tiles self) ->
  (forall fs key img metadata,
     (key, (img, metadata)) ∈ tiles self ->
     save_error fs img (cube_filename output_folder key) = None) ->
  exists w1 w2,
    save_all save_error resolve self output_folder w = (Ok tt, w1)
    /\ save_all save_error resolve self output_folder w1 = (Ok tt, w2)
    /\ files w2 = files w1.
Proof.
  intros _ Hok.
  destruct (save_items_lookup output_folder (tiles self) w Hok)
    as (w1 & Hrun1 & _ & Hfiles1).
  set (line := "Saved " ++ py_str_int (Z.of_nat (length (tiles self)))
                 ++ " tiles to " ++ output_folder).
  set (w1' := mkWorld (files w1) (stdout w1 ++ [line])).
  destruct (save_items_lookup output_folder (tiles self) w1' Hok)
    as (w2 & Hrun2 & _ & Hfiles2).
  exists w1', (mkWorld (files w2) (stdout w2 ++ [line])).
  split. { unfold save_all. by rewrite M_bind_run, Hrun1. }
  split. { unfold save_all. by rewrite M_bind_run, Hrun2. }
  simpl. apply map_eq. intros p. rewrite Hfiles2. simpl. rewrite Hfiles1.
  by destruct (last_written resolve output_folder (tiles self) p).
Qed.

(** X11. A tile just added is what [save_all] writes under its name: when no
    write fails and no two entries are written to one file, after
    [add_tile(name, image, metadata, (x, y, z))] the file of
    [<folder>/<name>_<z>_<x>_<y>.png] holds that image, whatever was stored
    under the key before. *)
Theorem add_tile_then_save_all self name image metadata x y z
    output_folder w :
  NoDup (map resolve
           (map (cube_filename output_folder)
              (list_tiles (add_tile self name image metadata (x, y, z))))) ->
  (forall fs key img metadata',
     (key, (img, metadata'))
       ∈ tiles (add_tile self name image metadata (x, y, z)) ->
     save_error fs img (cube_filename output_folder key) = None) ->
  exists w',
    save_all save_error resolve (add_tile self name image metadata (x, y, z))
      output_folder w = (Ok tt, w')
    /\ files w' !! resolve (output_folder ++ "/" ++ name ++ "_"
                              ++ py_str_int z ++ "_" ++ py_str_int x ++ "_"
                              ++ py_str_int y ++ ".png") = Some image.
Proof.
  intros Hnd Hok.
  set (cube := add_tile self name image metadata (x, y, z)) in *.
  destruct (save_items_ok save_error resolve output_folder (tiles cube) w Hok)
    as (w1 & Hrun & _ & _ & Hfiles).
  eexists. split. { unfold save_all. by rewrite M_bind_run, Hrun. }
  simpl. apply (Hfiles Hnd (x, y, z, name) image metadata).
  apply dict_get_Some_elem. apply dict_get_set_eq.
Qed.
End SaveFacts.

(** ** Fetching, again *)

Section FetchOutcome.
Context {Image Feature Processor Loop : Type}.
Variable mercantile_tile : spec_float -> spec_float -> Z -> result (Z * Z * Z).
Variable TileProcessor_new : result Processor.
Variable get_event_loop : result Loop.
Variable run_cached_generate_tile :
  Loop -> Processor -> TileRequest -> result (list Byte.byte * Feature).
Variable Image_open : list Byte.byte -> result Image.

(** X12. [fetch_ndvi_tile] is [fetch_index_tile] called with the default
    bands, formula and colour map, its result cut to the image and the
    metadata: both return for the same inputs, and both raise the same
    exception. *)
Theorem fetch_ndvi_tile_is_fetch_index_tile lat lon zoom start_date end_date
    cloud_cover :
  fetch_ndvi_tile mercantile_tile TileProcessor_new get_event_loop
    run_cached_generate_tile Image_open lat lon zoom start_date end_date
    cloud_cover
  = result_map without_coords
      (fetch_index_tile mercantile_tile TileProcessor_new get_event_loop
         run_cached_generate_tile Image_open lat lon zoom start_date end_date
         cloud_cover default_band1 default_band2 default_formula
         default_colormap_str).
Proof.
  unfold fetch_ndvi_tile, fetch_index_tile, default_band1, default_band2,
    default_formula, default_colormap_str.
  destruct (mercantile_tile lon lat zoom) as [[[x y] z]|e]; simpl; [|done].
  destruct TileProcessor_new as [tp|e]; simpl; [|done].
  destruct get_event_loop as [loop|e]; simpl; [|done].
  destruct (run_cached_generate_tile loop tp _) as [[image_bytes feature]|e];
    simpl; [|done].
  by destruct (Image_open image_bytes).
Qed.

(** X13. A fetch has no error of its own: what [fetch_index_tile] returns is
    the triple of an image, a metadata record and the coordinates of
    [mercantile.tile], and what it raises was raised by one of the five
    library calls. *)
Theorem fetch_index_tile_outcome lat lon zoom start_date end_date cloud_cover
    band1 band2 formula colormap_str :
  match fetch_index_tile mercantile_tile TileProcessor_new get_event_loop
          run_cached_generate_tile Image_open lat lon zoom start_date
          end_date cloud_cover band1 band2 formula colormap_str with
  | Ok o =>
      exists img feature x y z,
        mercantile_tile lon lat zoom = Ok (x, y, z)
        /\ o = PTuple [PImage img; PFeature feature;
                       PTuple [PInt x; PInt y; PInt z]]
  | Raise e =>
      fetch_failure mercantile_tile TileProcessor_new get_event_loop
        run_cached_generate_tile Image_open lat lon zoom
        (fun x y z => mkRequest x y z start_date end_date cloud_cover band1
                        band2 formula colormap_str) e
  end.
Proof.
  unfold fetch_index_tile.
  destruct (mercantile_tile lon lat zoom) as [[[x y] z]|e] eqn:H1; simpl;
    [|by apply projection_fails].
  destruct TileProcessor_new as [tp|e] eqn:H2; simpl;
    [|by eapply processor_fails].
  destruct get_event_loop as [loop|e] eqn:H3; simpl;
    [|by eapply loop_fails].
  destruct (run_cached_generate_tile loop tp _)
    as [[image_bytes feature]|e] eqn:H4; simpl;
    [|by eapply engine_fails].
  destruct (Image_open image_bytes) as [img|e] eqn:H5; simpl;
    [|by eapply decode_fails].
  by exists img, feature, x, y, z.
Qed.
End FetchOutcome.

(** ** The index, again *)

(** X15. With its default numerator and denominator [compute_index] is
    [compute_ndvi] on every pair of bands, when they raise as when they
    return. *)
Theorem compute_index_defaults_are_ndvi py_eval nir_array red_array :
  extends_arith_eval py_eval ->
  compute_index py_eval nir_array red_array default_numerator
    default_denominator
  = compute_ndvi nir_array red_array.
Proof. apply compute_index_default. Qed.

Section BroadcastOutcome.
Variable f : spec_float -> spec_float -> spec_float.
Implicit Types a b : list spec_float.

Lemma broadcast2_outcome a b :
  if broadcastable (length a) (length b)
  then exists c, broadcast2 f a b = Ok c
                 /\ length c = broadcast_size (length a) (length b)
  else broadcast2 f a b = Raise broadcast_error.
Proof.
  unfold broadcastable, broadcast_size, broadcast2.
  destruct (Nat.eqb (length a) (length b)) eqn:Hlen; simpl.
  { apply Nat.eqb_eq in Hlen. eexists. split; [done|].
    by apply zip_with_f_length. }
  destruct a as [|x [|x' a]], b as [|y [|y' b]]; simpl in *; try done;
    eexists; (split; [done|]); simpl; by rewrite ?length_map.
Qed.

Lemma broadcast2_stretch_l x b : broadcast2 f [x] b = Ok (map (f x) b).
Proof. by destruct b as [|y [|y' b]]. Qed.

Lemma broadcast2_stretch_r a y :
  broadcast2 f a [y] = Ok (map (fun x => f x y) a).
Proof. by destruct a as [|x [|x' a]]. Qed.

Lemma zip_with_f_diag a : zip_with_f f a a = map (fun x => f x x) a.
Proof. induction a as [|x a IH]; simpl; [done | by rewrite IH]. Qed.
End BroadcastOutcome.

(** X16. [compute_ndvi] raises exactly when the bands cannot be broadcast,
    that is when their lengths differ and neither is one, and then it raises
    NumPy's [ValueError]; otherwise it returns an array of the broadcast
    length. A zero divisor raises nothing. *)
Theorem compute_ndvi_outcome nir_array red_array :
  if broadcastable (array_size nir_array) (array_size red_array)
  then exists a,
         compute_ndvi nir_array red_array = Ok (VArray a)
         /\ length a
            = broadcast_size (array_size nir_array) (array_size red_array)
  else compute_ndvi nir_array red_array = Raise broadcast_error.
Proof.
  rewrite <- !astype_float32_length. unfold compute_ndvi, ndvi_denominator.
  set (nir := astype_float32 nir_array). set (red := astype_float32 red_array).
  pose proof (broadcast2_outcome F32.sub nir red) as Hsub.
  pose proof (broadcast2_outcome F32.add nir red) as Hadd.
  destruct (broadcastable (length nir) (length red)).
  - destruct Hsub as (c1 & Hsub & Hlen1), Hadd as (c2 & Hadd & Hlen2).
    unfold py_sub, py_add, py_binop. rewrite Hsub, Hadd. simpl.
    unfold py_div, py_binop.
    rewrite broadcast2_same_length by (rewrite length_map; congruence).
    simpl. eexists. split; [done|].
    rewrite zip_with_f_length by (rewrite length_map; congruence). done.
  - unfold py_sub, py_binop. by rewrite Hsub.
Qed.

Lemma ndvi_eps_map_l x (red : list spec_float) :
  zip_with_f F32.div (map (F32.sub x) red)
    (map (fun s => F32.add s eps32) (map (F32.add x) red))
  = map (ndvi_eps x) red.
Proof. induction red as [|y red IH]; simpl; [done | by rewrite IH]. Qed.

Lemma ndvi_eps_map_r y (nir : list spec_float) :
  zip_with_f F32.div (map (fun x => F32.sub x y) nir)
    (map (fun s => F32.add s eps32) (map (fun x => F32.add x y) nir))
  = map (fun x => ndvi_eps x y) nir.
Proof. induction nir as [|x nir IH]; simpl; [done | by rewrite IH]. Qed.

(** X17. A band of a single value is stretched over the other band: the one
    NIR value is paired with every Red value, and the one Red value with
    every NIR value. *)
Theorem compute_ndvi_stretches nir_array red_array :
  (forall x,
     astype_float32 nir_array = [x] ->
     compute_ndvi nir_array red_array
     = Ok (VArray (map (ndvi_eps x) (astype_float32 red_array))))
  /\ (forall y,
        astype_float32 red_array = [y] ->
        compute_ndvi nir_array red_array
        = Ok (VArray (map (fun x => ndvi_eps x y)
                        (astype_float32 nir_array)))).
Proof.
  split.
  - intros x Hnir. unfold compute_ndvi, ndvi_denominator. rewrite Hnir.
    unfold py_sub, py_add, py_binop. rewrite !broadcast2_stretch_l. simpl.
    unfold py_div, py_binop.
    rewrite broadcast2_same_length by (by rewrite !length_map).
    simpl. fold eps32. by rewrite ndvi_eps_map_l.
  - intros y Hred. unfold compute_ndvi, ndvi_denominator. rewrite Hred.
    unfold py_sub, py_add, py_binop. rewrite !broadcast2_stretch_r. simpl.
    unfold py_div, py_binop.
    rewrite broadcast2_same_length by (by rewrite !length_map).
    simpl. fold eps32. by rewrite ndvi_eps_map_r.
Qed.

Lemma F32_sub_diag (x : spec_float) :
  is_finite x = true -> is_zero (F32.sub x x) = true.
Proof.
  destruct x as [s|s| |s m e]; simpl; try done; intros _.
  - by destruct s.
  - unfold F32.sub, SFsub. rewrite Z.min_id. unfold shl_align.
    by rewrite Z.sub_diag.
Qed.

Lemma ndvi_eps_diag (x : spec_float) :
  nonneg32 x -> is_finite x = true -> is_zero (ndvi_eps x x) = true.
Proof.
  intros Hx Hfin. unfold ndvi_eps.
  pose proof (F32_sub_diag x Hfin) as Hnum.
  pose proof (F32_add_eps_nonzero _ (F32_add_nonneg x x Hx Hx)) as Hnz.
  pose proof (F32_add_nonneg _ _ (F32_add_nonneg x x Hx Hx)
                (F32_add_nonneg _ _ (F32_of_Z_nonneg 0 (Z.le_refl 0))
                   (F32_of_f64_nonneg eps64 eq_refl))) as [Hnn _].
  change (F32.add (F32.of_Z 0) (F32.of_f64 eps64)) with eps32 in Hnn.
  destruct (F32.sub x x) as [s| | |]; try done.
  unfold nonzero in Hnz.
  destruct (F32.add (F32.add x x) eps32) as [s'|s'| |s' m' e']; done.
Qed.

(** X18. Where NIR equals Red the index is zero: on a band of finite values,
    none negative, [compute_ndvi] of the band with itself returns zeros at
    every pixel, the pixels where both are 0 included. *)
Theorem compute_ndvi_equal_bands band :
  nonneg_band band ->
  Forall (fun x => is_finite x = true) (astype_float32 band) ->
  exists a,
    compute_ndvi band band = Ok (VArray a)
    /\ length a = array_size band
    /\ Forall (fun x => is_zero x = true) a.
Proof.
  intros Hband Hfin. eexists.
  split; [by apply compute_ndvi_same_length|].
  split.
  { rewrite zip_with_f_length by done. apply astype_float32_length. }
  rewrite zip_with_f_diag. apply Forall_map.
  pose proof (astype_float32_nonneg band Hband) as Hnn.
  induction Hnn as [|x l Hx Hl IH]; [constructor|].
  inversion Hfin; subst. constructor; [by apply ndvi_eps_diag | by apply IH].
Qed.

(** ** Instances of the further properties *)

Local Open Scope string_scope.

(** X4 at a cube with one NDVI tile. *)
Lemma list_tiles_get_tile_witness :
  is_Some (get_tile (add_tile (Metadata := string) VirtualCube_init "ndvi"
                       "image" "feature" (1, 2, 3)) "ndvi" (1, 2, 3)).
Proof.
  apply (proj1 (list_tiles_get_tile
                  (add_tile (Metadata := string) VirtualCube_init "ndvi"
                     "image" "feature" (1, 2, 3)) "ndvi" (1, 2, 3))).
  simpl. apply list_elem_of_here.
Defined.

(** X6 for an NDVI and an NDWI tile of one place. *)
Lemma add_tile_swap_witness :
  let ab := add_tile (add_tile (Metadata := string) VirtualCube_init "ndvi"
                        "image" "feature" (1, 2, 3))
              "ndwi" "image'" "feature'" (1, 2, 3) in
  let ba := add_tile (add_tile (Metadata := string) VirtualCube_init "ndwi"
                        "image'" "feature'" (1, 2, 3))
              "ndvi" "image" "feature" (1, 2, 3) in
  get_tile ab "ndvi" (1, 2, 3) = get_tile ba "ndvi" (1, 2, 3)
  /\ list_tiles ab ≡ₚ list_tiles ba.
Proof.
  intros ab ba.
  destruct (add_tile_swap (Metadata := string) VirtualCube_init "ndvi"
              (1, 2, 3) "image" "feature" "ndwi" (1, 2, 3) "image'"
              "feature'") as [Hget Hkeys]; [discriminate|].
  split; [apply Hget | exact Hkeys].
Defined.

(** X7 for the tiles (1, 2, 3) and (2, 3, 1). *)
Lemma tile_filename_inj_witness :
  tile_filename "." 1 2 3 ≠ tile_filename "." 2 3 1
  /\ trial_tile_filename "." 1 2 3 ≠ trial_tile_filename "." 2 3 1
  /\ tile_filename "." 2 3 1 = trial_tile_filename "." 1 2 3.
Proof.
  destruct (tile_filename_inj "." 1 2 3 2 3 1) as (Hmain & Htrial & _).
  destruct (tile_filename_inj "." 2 3 1 1 2 3) as (_ & _ & Hcross).
  split; [|split].
  - intros Heq. apply Hmain in Heq. discriminate.
  - intros Heq. apply Htrial in Heq. discriminate.
  - apply Hcross. reflexivity.
Defined.

(** X8 for an entry named [ndvi]. *)
Lemma cube_filename_is_tile_filename_witness :
  cube_filename "." (1, 2, 3, "tile") = tile_filename "." 1 2 3
  /\ cube_filename "." (1, 2, 3, "ndvi") ≠ tile_filename "." 1 2 3.
Proof.
  split.
  - apply cube_filename_is_tile_filename. reflexivity.
  - intros Heq. apply cube_filename_is_tile_filename in Heq. discriminate.
Defined.


(** X10 and X11 on a cube of two tiles. *)
Lemma save_all_twice_witness :
  let cube := add_tile (add_tile (Metadata := string) VirtualCube_init "ndvi"
                          "image" "feature" (1, 2, 3))
                "ndwi" "image'" "feature'" (1, 2, 3) in
  exists w1 w2,
    save_all (fun _ _ _ => None) id cube "out" (mkWorld ∅ []) = (Ok tt, w1)
    /\ save_all (fun _ _ _ => None) id cube "out" w1 = (Ok tt, w2)
    /\ files w2 = files w1.
Proof.
  intros cube.
  apply (save_all_twice (fun _ _ _ => None) id cube "out" (mkWorld ∅ []));
    [|done].
  unfold cube, add_tile. cbn [tiles].
  do 2 apply dict_wf_set. apply NoDup_nil_2.
Defined.

Lemma add_tile_then_save_all_witness :
  let cube := add_tile (Metadata := string) VirtualCube_init "ndvi" "image"
                "feature" (1, 2, 3) in
  exists w',
    save_all (fun _ _ _ => None) id
      (add_tile cube "ndvi" "newer" "feature'" (1, 2, 3)) "out"
      (mkWorld ∅ [])
    = (Ok tt, w')
    /\ files w' !! "out/ndvi_3_1_2.png" = Some "newer".
Proof.
  intros cube.
  apply (add_tile_then_save_all (fun _ _ _ => None) id cube "ndvi" "newer"
           "feature'" 1 2 3 "out" (mkWorld ∅ [])); [|done].
  rewrite map_id. apply cube_filenames_NoDup.
  unfold cube, add_tile. cbn [tiles]. do 2 apply dict_wf_set.
  apply NoDup_nil_2.
Defined.

(** X15 on bands of two and of three pixels, and of two and two. *)
Lemma compute_index_defaults_are_ndvi_witness :
  compute_index arith_eval_total (IntArray [1; 2]) (IntArray [0; 0; 1])
    default_numerator default_denominator
  = compute_ndvi (IntArray [1; 2]) (IntArray [0; 0; 1])
  /\ compute_index arith_eval_total (IntArray [3; 100]) (IntArray [1; 0])
       default_numerator default_denominator
     = compute_ndvi (IntArray [3; 100]) (IntArray [1; 0]).
Proof.
  split; apply compute_index_defaults_are_ndvi, arith_eval_total_extends.
Defined.

(** X17 for one NIR value over three Red values. *)
Lemma compute_ndvi_stretches_witness :
  compute_ndvi (IntArray [4]) (IntArray [0; 1; 2])
  = Ok (VArray (map (ndvi_eps (F32.of_Z 4))
                  [F32.of_Z 0; F32.of_Z 1; F32.of_Z 2]))
  /\ compute_ndvi (IntArray [0; 1; 2]) (IntArray [4])
     = Ok (VArray (map (fun x => ndvi_eps x (F32.of_Z 4))
                     [F32.of_Z 0; F32.of_Z 1; F32.of_Z 2])).
Proof.
  split.
  - apply (proj1 (compute_ndvi_stretches (IntArray [4])
                    (IntArray [0; 1; 2]))). reflexivity.
  - apply (proj2 (compute_ndvi_stretches (IntArray [0; 1; 2])
                    (IntArray [4]))). reflexivity.
Defined.

(** X18 on a band of three counts. *)
Lemma compute_ndvi_equal_bands_witness :
  exists a,
    compute_ndvi (IntArray [0; 7; 1200]) (IntArray [0; 7; 1200])
    = Ok (VArray a)
    /\ length a = 3%nat
    /\ Forall (fun x => is_zero x = true) a.
Proof.
  apply (compute_ndvi_equal_bands (IntArray [0; 7; 1200])).
  - simpl. repeat constructor; lia.
  - simpl. repeat constructor.
Defined.
